(** * V3 Print Agent: the tray-icon generator [create_icon.py]

    The script draws a printer pictogram at a given pixel size with the
    imaging library's [ImageDraw] primitives ([create_printer_icon]) and
    saves the result as a multi-size [.ico] file ([main]).

    Modelling choices, fixed once for the whole development:
    - Python integers are [Z]; Python floats are exact rationals [Q], so
      [size * 0.7] is seven tenths of [size] with no binary rounding;
      [int(...)] and the C cast of a coordinate to [int] truncate toward
      zero ([trunc]).  [rational_model_matches_binary64] checks that for
      sizes 1 to 2000 the integers that reach the drawing layer are the
      ones IEEE binary64 arithmetic gives.
    - Every Python call is a computation over the outside world that ends
      in a value or in an exception ([Py]); [print], file creation and the
      library's [ValueError]s go through it.
    - An image is a mode, a size and rows of RGBA pixels; the drawing
      context mutates the image in place, which becomes image passing.
    - The imaging library is not part of the repository.  Its rectangle
      follows the library's C routine (a fill pass over the closed integer
      box, an outline pass of horizontal and vertical lines, a [ValueError]
      for a box whose corners are out of order); its ellipse rasteriser,
      its resampler and its ICO serialiser are interfaces
      ([EllipseRasterizer], [IcoCodec]) whose laws are the only facts the
      proofs use, and for which reference instances are given. *)

From Stdlib Require Import ZArith QArith Qround Lia Floats Ascii.
From stdpp Require Import base list strings gmap pretty.

Open Scope Z_scope.

(** ** Numbers *)

(** [int(x)] on a float, and the C conversion of a [double] coordinate to
    [int]: truncation toward zero. *)
Definition trunc (q : Q) : Z := Z.quot (Qnum q) (Z.pos (Qden q)).

(** Python 3 [round(x)] on a float: nearest integer, ties to even.  Only
    the specification's wording of the stroke width uses it; the script
    does not. *)
Definition py_round (q : Q) : Z :=
  let d := Z.pos (Qden q) in
  let f := Qnum q / d in
  let r := Qnum q mod d in
  if 2 * r <? d then f
  else if d <? 2 * r then f + 1
  else if Z.even f then f else f + 1.

(** ** The outside world and Python's control flow *)

Module Sys.

(** What the script can observe and change: the lines printed so far, the
    files, which paths can be opened for writing, every attempt to open a
    file for writing (in order), and the directory of the script. *)
Record World := mkWorld {
  stdout : list string;
  files : gmap string (list Byte.byte);
  writable : string -> bool;
  opened : list string;
  script_dir : string
}.

(** The library routine whose argument check raised a [ValueError]. *)
Inductive Raiser :=
| in_Image_new
| in_draw_rectangle
| in_draw_ellipse
| in_ico_save.

Inductive PyError :=
| OSError (filename : string)   (* raised by [open]; [IOError] is its alias *)
| IndexError                    (* list index out of range *)
| ValueError (raiser : Raiser).

Inductive Result (A : Type) :=
| Ok (a : A)
| Raise (e : PyError).
Arguments Ok {A} a.
Arguments Raise {A} e.

(** A statement: from a world to the world it leaves and either a value
    or the exception that ended it. *)
Definition Py (A : Type) : Type := World -> World * Result A.

#[export] Instance Py_ret : MRet Py := fun A a w => (w, Ok a).

#[export] Instance Py_bind : MBind Py := fun A B k c w =>
  match c w with
  | (w', Ok a) => k a w'
  | (w', Raise e) => (w', Raise e)
  end.

Definition raise {A} (e : PyError) : Py A := fun w => (w, Raise e).

Definition print (line : string) : Py unit := fun w =>
  (mkWorld (stdout w ++ [line]) (files w) (writable w) (opened w)
     (script_dir w), Ok tt).

Definition starts_with_sep (s : string) : bool :=
  match s with
  | String c _ => bool_decide (c = "/"%char)
  | EmptyString => false
  end.

Fixpoint ends_with_sep (s : string) : bool :=
  match s with
  | EmptyString => false
  | String c EmptyString => bool_decide (c = "/"%char)
  | String _ s' => ends_with_sep s'
  end.

(** [os.path.join(a, b)] on POSIX: an absolute [b] replaces [a]; no
    separator is added after an empty [a] or one that ends in a separator. *)
Definition path_join (a b : string) : string :=
  if starts_with_sep b then b
  else if bool_decide (a = "") || ends_with_sep a then a +:+ b
  else a +:+ "/" +:+ b.

(** [os.path.join(os.path.dirname(__file__), 'assets', 'icon.ico')]. *)
Definition icon_file (w : World) : string :=
  path_join (path_join (script_dir w) "assets") "icon.ico".

Definition icon_path : Py string := fun w => (w, Ok (icon_file w)).

(** [icons[-1]]. *)
Definition last_item {A} (l : list A) : Py A :=
  match last l with
  | Some a => mret a
  | None => raise IndexError
  end.

(** A [for] loop that threads an accumulator through its body. *)
Fixpoint for_each {A B} (l : list A) (body : A -> B -> Py B) (acc : B)
    : Py B :=
  match l with
  | [] => mret acc
  | a :: l' => acc' ← body a acc; for_each l' body acc'
  end.

End Sys.

(** ** The imaging library *)

Module PIL.
Import Sys.

Inductive Mode := L | RGB_mode | RGBA.

(** One pixel of an RGBA image. *)
Record Pixel := mkPixel { red : Z; green : Z; blue : Z; alpha : Z }.

#[export] Instance Pixel_eq_dec : EqDecision Pixel.
Proof. solve_decision. Defined.

(** A colour argument as Python code writes it: a 3-tuple or a 4-tuple. *)
Inductive Color :=
| RGB (r g b : Z)
| RGBA4 (r g b a : Z).

(** The ink an RGBA drawing context stores for a colour: a 3-tuple gets
    the default alpha 255. *)
Definition getink (c : Color) : Pixel :=
  match c with
  | RGB r g b => mkPixel r g b 255
  | RGBA4 r g b a => mkPixel r g b a
  end.

Record Image := mkImage {
  mode : Mode;
  xsize : Z;
  ysize : Z;
  rows : list (list Pixel)   (* rows !! y !! x, as the C struct's image32[y][x] *)
}.

(** The image [Image.new] allocates. *)
Definition blank_image (m : Mode) (size : Z * Z) (color : Color) : Image :=
  mkImage m size.1 size.2
    (replicate (Z.to_nat size.2) (replicate (Z.to_nat size.1) (getink color))).

(** [Image.new(mode, size, color)]; a negative width or height is a
    [ValueError]. *)
Definition Image_new (m : Mode) (size : Z * Z) (color : Color) : Py Image :=
  if bool_decide (size.1 < 0 \/ size.2 < 0)
  then raise (ValueError in_Image_new)
  else mret (blank_image m size color).

(** The pixel stored at column [x] of row [y], [None] outside the image. *)
Definition pixel_at (im : Image) (x y : Z) : option Pixel :=
  if bool_decide (0 <= x < xsize im /\ 0 <= y < ysize im)
  then rows im !! Z.to_nat y ≫= (.!! Z.to_nat x)
  else None.

(** A negative index counts from the end. *)
Definition wrap (n i : Z) : Z := if i <? 0 then n + i else i.

(** [im.getpixel((x, y))]; [None] stands for the [IndexError] outside the
    image. *)
Definition getpixel (im : Image) (x y : Z) : option Pixel :=
  pixel_at im (wrap (xsize im) x) (wrap (ysize im) y).

(** The C drawing layer stores one ink into every pixel of the image that a
    primitive covers (its [hline] and [point] clip to the image). *)
Definition paint (cover : Z -> Z -> bool) (ink : Pixel) (im : Image) : Image :=
  mkImage (mode im) (xsize im) (ysize im)
    (imap (fun j row =>
       imap (fun i p => if cover (Z.of_nat i) (Z.of_nat j) then ink else p) row)
       (rows im)).

(** A bounding box [x0, y0, x1, y1], as floats in Python and as ints in C. *)
Definition FBox : Type := Q * Q * Q * Q.
Definition Box : Type := Z * Z * Z * Z.

Definition int_box (xy : FBox) : Box :=
  let '(x0, y0, x1, y1) := xy in (trunc x0, trunc y0, trunc x1, trunc y1).

(** The drawing routines refuse a box with [x1 < x0] or [y1 < y0]. *)
Definition ordered (xy : FBox) : bool :=
  let '(x0, y0, x1, y1) := xy in Qle_bool x0 x1 && Qle_bool y0 y1.

(** Both corners belong to the box; swapped corners are put in order. *)
Definition in_box (b : Box) (x y : Z) : bool :=
  let '(x0, y0, x1, y1) := b in
  (Z.min x0 x1 <=? x) && (x <=? Z.max x0 x1) &&
  (Z.min y0 y1 <=? y) && (y <=? Z.max y0 y1).

(** The outline pass of a rectangle, as the C routine draws it: for each
    [i < width] the rows [y0 + i] and [y1 - i] across the box, and in the
    columns [x1 - i] and [x0 + i] the line from row [y0 + width] to row
    [y1 - width + 1], last row excluded.  On a box lower than the stroke
    that line runs upwards and starts below the box. *)
Definition rect_border (b : Box) (width : Z) (x y : Z) : bool :=
  let '(x0, y0', x1, y1') := b in
  let y0 := Z.min y0' y1' in
  let y1 := Z.max y0' y1' in
  let a := y0 + width in
  let e := y1 - width + 1 in
  ((Z.min x0 x1 <=? x) && (x <=? Z.max x0 x1) &&
   (((y0 <=? y) && (y <? y0 + width)) || ((y1 - width <? y) && (y <=? y1))))
  ||
  ((((x1 - width <? x) && (x <=? x1)) || ((x0 <=? x) && (x <? x0 + width))) &&
   (if a <=? e then (a <=? y) && (y <? e) else (e <? y) && (y <=? a))).

(** Whether [ImageDraw] makes the second, outline pass. *)
Definition strokes (fill outline : Color) (width : Z) : bool :=
  bool_decide (getink outline <> getink fill) && bool_decide (width <> 0).

(** What [draw.rectangle] does to the image once its box is accepted: the
    fill pass over the whole box, then the outline pass when the outline
    ink differs from the fill ink and the width is not zero. *)
Definition paint_rectangle (im : Image) (xy : FBox) (fill outline : Color)
    (width : Z) : Image :=
  let b := int_box xy in
  let im := paint (in_box b) (getink fill) im in
  if strokes fill outline width
  then paint (rect_border b width) (getink outline) im
  else im.

(** [draw.rectangle(xy, fill=, outline=, width=)]. *)
Definition rectangle (im : Image) (xy : FBox) (fill outline : Color)
    (width : Z) : Py Image :=
  if ordered xy then mret (paint_rectangle im xy fill outline width)
  else raise (ValueError in_draw_rectangle).

(** The library's ellipse rasteriser: which pixels a filled ellipse, or a
    ring of the given stroke width, inscribed in an integer box covers.
    The laws: nothing outside the box; a filled ellipse contains the centre
    pixel of its box; a ring leaves the centre pixel alone when the box is
    wider and higher than twice the stroke. *)
Class EllipseRasterizer := {
  ellipse_cover : Box -> bool -> Z -> Z -> Z -> bool;
  ellipse_cover_in_box : forall b filled w x y,
    ellipse_cover b filled w x y = true -> in_box b x y = true;
  ellipse_fill_centre : forall x0 y0 x1 y1 w,
    x0 <= x1 -> y0 <= y1 ->
    ellipse_cover (x0, y0, x1, y1) true w
      (x0 + (x1 - x0) / 2) (y0 + (y1 - y0) / 2) = true;
  ellipse_ring_centre : forall x0 y0 x1 y1 w,
    0 < w -> 2 * w + 1 <= x1 - x0 -> 2 * w + 1 <= y1 - y0 ->
    ellipse_cover (x0, y0, x1, y1) false w
      (x0 + (x1 - x0) / 2) (y0 + (y1 - y0) / 2) = false
}.

(** What [draw.ellipse] does to the image once its box is accepted: the
    same two passes. *)
Definition paint_ellipse `{EllipseRasterizer} (im : Image) (xy : FBox)
    (fill outline : Color) (width : Z) : Image :=
  let b := int_box xy in
  let im := paint (ellipse_cover b true 0) (getink fill) im in
  if strokes fill outline width
  then paint (ellipse_cover b false width) (getink outline) im
  else im.

(** [draw.ellipse(xy, fill=, outline=, width=)]. *)
Definition ellipse `{EllipseRasterizer} (im : Image) (xy : FBox)
    (fill outline : Color) (width : Z) : Py Image :=
  if ordered xy then mret (paint_ellipse im xy fill outline width)
  else raise (ValueError in_draw_ellipse).

End PIL.

(** ** The ICO writer *)

Module Ico.
Import Sys PIL.

(** The parts of the library's ICO plugin the model leaves open: the
    resampler behind [frame.thumbnail(size, LANCZOS)], which keeps the
    aspect ratio and so returns the requested square from a square source;
    the byte layout of the container built from the frames; and what an
    aborted write leaves in a file that existed before. *)
Class IcoCodec := {
  thumbnail : Image -> Z * Z -> Image;
  thumbnail_square : forall im s,
    xsize im = ysize im -> 0 < s <= xsize im ->
    xsize (thumbnail im (s, s)) = s /\ ysize (thumbnail im (s, s)) = s;
  ico_bytes : list Image -> list Byte.byte;
  ico_aborted : list Byte.byte
}.

Definition size_ltb (a b : Z * Z) : bool :=
  (a.1 <? b.1) || ((a.1 =? b.1) && (a.2 <? b.2)).

Fixpoint insert_size (s : Z * Z) (l : list (Z * Z)) : list (Z * Z) :=
  match l with
  | [] => [s]
  | t :: l' =>
      if size_ltb s t then s :: t :: l'
      else if decide (s = t) then t :: l'
      else t :: insert_size s l'
  end.

(** [sorted(set(sizes))]. *)
Definition sorted_set (sizes : list (Z * Z)) : list (Z * Z) :=
  foldr insert_size [] sizes.

(** The frames the plugin writes for [im.save(..., format='ICO', sizes=)]
    with no [append_images]: one per distinct requested size that fits the
    image and the format's 256 limit, in increasing order; the image itself
    where the size is its own, a downscaled copy of it otherwise. *)
Definition ico_frames `{IcoCodec} (im : Image) (sizes : list (Z * Z))
    : list Image :=
  omap (fun size : Z * Z =>
    if bool_decide (size.1 > xsize im \/ size.2 > ysize im \/
                    size.1 > 256 \/ size.2 > 256)
    then None
    else if decide ((xsize im, ysize im) = size) then Some im
    else Some (thumbnail im size))
    (sorted_set sizes).

(** [im.save(fp, format='ICO', sizes=sizes)]: opens [fp] for writing, which
    raises [OSError] when the path cannot be written, then stores the
    container.  When no requested size fits the image the plugin raises
    [ValueError]; [save] then removes the file if the open created it, and
    leaves an existing file as the aborted write left it. *)
Definition Image_save `{IcoCodec} (im : Image) (fp : string)
    (sizes : list (Z * Z)) : Py unit := fun w =>
  let log := opened w ++ [fp] in
  if writable w fp
  then match ico_frames im sizes with
       | [] =>
           (mkWorld (stdout w)
              (match files w !! fp with
               | Some _ => <[fp := ico_aborted]> (files w)
               | None => files w
               end)
              (writable w) log (script_dir w),
            Raise (ValueError in_ico_save))
       | frames =>
           (mkWorld (stdout w) (<[fp := ico_bytes frames]> (files w))
              (writable w) log (script_dir w), Ok tt)
       end
  else (mkWorld (stdout w) (files w) (writable w) log (script_dir w),
        Raise (OSError fp)).

End Ico.

(** ** The script *)

Module CreateIcon.
Import Sys PIL Ico.

Local Coercion inject_Z : Z >-> Q.

Section create_printer_icon.
Context `{EllipseRasterizer}.
Variable size : Z.

(** The local variables of [create_printer_icon], in the order of the
    source. *)
Definition scale : Q := (size / 64.0)%Q.

Definition printer_body : Color := RGB 70 130 180.
Definition paper_color : Color := RGB 255 255 255.
Definition outline_color : Color := RGB 40 80 120.
Definition accent_color : Color := RGB 100 180 255.

Definition line_width : Z := Z.max 1 (trunc (2 * scale)).

Definition paper_x : Q := (size * 0.25)%Q.
Definition paper_y : Q := (size * 0.05)%Q.
Definition paper_w : Q := (size * 0.5)%Q.
Definition paper_h : Q := (size * 0.3)%Q.

Definition body_x : Q := (size * 0.15)%Q.
Definition body_y : Q := (size * 0.25)%Q.
Definition body_w : Q := (size * 0.7)%Q.
Definition body_h : Q := (size * 0.5)%Q.

Definition panel_y : Q := (body_y + body_h * 0.3)%Q.

Definition button_x : Q := (body_x + body_w * 0.8)%Q.
Definition button_y : Q := (body_y + body_h * 0.15)%Q.
Definition button_r : Q := (size * 0.05)%Q.

Definition tray_y : Q := (body_y + body_h)%Q.
Definition tray_h : Q := (size * 0.15)%Q.

(** The bounding boxes handed to the drawing calls. *)
Definition paper_box : FBox :=
  (paper_x, paper_y, paper_x + paper_w, paper_y + paper_h)%Q.
Definition body_box : FBox :=
  (body_x, body_y, body_x + body_w, body_y + body_h)%Q.
Definition panel_box : FBox :=
  (body_x + (2 * line_width)%Z, panel_y,
   body_x + body_w - (2 * line_width)%Z,
   body_y + body_h - (2 * line_width)%Z)%Q.
Definition button_box : FBox :=
  (button_x - button_r, button_y - button_r,
   button_x + button_r, button_y + button_r)%Q.
Definition tray_box : FBox :=
  (body_x, tray_y, body_x + body_w, tray_y + tray_h)%Q.

Definition button_color : Color := RGB 100 200 100.
Definition tray_color : Color := RGB 60 110 160.

Definition create_printer_icon : Py Image :=
  (* Create a new image with transparent background *)
  img ← Image_new RGBA (size, size) (RGBA4 0 0 0 0);
  (* Draw paper with outline *)
  img ← rectangle img paper_box paper_color outline_color line_width;
  (* Draw printer body *)
  img ← rectangle img body_box printer_body outline_color line_width;
  (* Front panel (lighter accent) *)
  img ← rectangle img panel_box accent_color outline_color
          (Z.max 1 (line_width - 1));
  (* Power button (small circle) *)
  img ← (if decide (size >= 32)
         then ellipse img button_box button_color outline_color
                (Z.max 1 (line_width - 1))
         else mret img);
  (* Paper tray (bottom) *)
  img ← rectangle img tray_box tray_color outline_color line_width;
  mret img.

End create_printer_icon.

Section main.
Context `{EllipseRasterizer} `{IcoCodec}.

Definition newline : string := String (Ascii.ascii_of_nat 10) "".

Definition main : Py unit :=
  let sizes := [16; 32; 48; 256] in
  let icons : list Image := [] in
  print "Creating printer icon...";;
  icons ← for_each sizes (fun size icons =>
    print ("  Generating " +:+ pretty size +:+ "x" +:+ pretty size
           +:+ " icon...");;
    icon ← create_printer_icon size;
    mret (icons ++ [icon])) icons;
  (* Save as ICO file *)
  output_path ← icon_path;
  print (newline +:+ "Saving to " +:+ output_path +:+ "...");;
  (* PIL's ICO support: save the largest image and specify all sizes *)
  largest ← last_item icons;
  Image_save largest output_path (map (fun s => (s, s)) sizes);;
  print "[OK] Icon created successfully!";;
  print ("  Location: " +:+ output_path);;
  print ("  Sizes: " +:+
         String.concat ", "
           (map (fun s => pretty s +:+ "x" +:+ pretty s) sizes)).

(** The two halves of [main] with the renderer, the size list and the
    collected images made parameters, so that properties of the driver
    can quantify over them. *)
Definition generate (render : Z -> Py Image) (sizes : list Z)
    : Py (list Image) :=
  for_each sizes (fun size icons =>
    print ("  Generating " +:+ pretty size +:+ "x" +:+ pretty size
           +:+ " icon...");;
    icon ← render size;
    mret (icons ++ [icon])) [].

Definition save_icons (icons : list Image) (sizes : list Z) : Py unit :=
  output_path ← icon_path;
  print (newline +:+ "Saving to " +:+ output_path +:+ "...");;
  largest ← last_item icons;
  Image_save largest output_path (map (fun s => (s, s)) sizes);;
  print "[OK] Icon created successfully!";;
  print ("  Location: " +:+ output_path);;
  print ("  Sizes: " +:+
         String.concat ", "
           (map (fun s => pretty s +:+ "x" +:+ pretty s) sizes)).

Definition package (render : Z -> Py Image) (sizes : list Z) : Py unit :=
  print "Creating printer icon...";;
  icons ← generate render sizes;
  save_icons icons sizes.

End main.

(** The drawing calls of [create_printer_icon] as data: what is drawn, in
    the order it is drawn. *)
Inductive Shape :=
| Rectangle (xy : FBox) (fill outline : Color) (width : Z)
| Ellipse (xy : FBox) (fill outline : Color) (width : Z).

Definition paper (size : Z) : Shape :=
  Rectangle (paper_box size) paper_color outline_color (line_width size).
Definition body (size : Z) : Shape :=
  Rectangle (body_box size) printer_body outline_color (line_width size).
Definition panel (size : Z) : Shape :=
  Rectangle (panel_box size) accent_color outline_color
    (Z.max 1 (line_width size - 1)).
Definition button (size : Z) : Shape :=
  Ellipse (button_box size) button_color outline_color
    (Z.max 1 (line_width size - 1)).
Definition tray (size : Z) : Shape :=
  Rectangle (tray_box size) tray_color outline_color (line_width size).

Definition shapes (size : Z) : list Shape :=
  [paper size; body size; panel size] ++
  (if decide (size >= 32) then [button size] else []) ++
  [tray size].

Definition draw `{EllipseRasterizer} (img : Image) (sh : Shape) : Py Image :=
  match sh with
  | Rectangle xy fill outline width => rectangle img xy fill outline width
  | Ellipse xy fill outline width => ellipse img xy fill outline width
  end.

Fixpoint draw_all `{EllipseRasterizer} (shs : list Shape) (img : Image)
    : Py Image :=
  match shs with
  | [] => mret img
  | sh :: shs' => img' ← draw img sh; draw_all shs' img'
  end.

Definition box_of (sh : Shape) : FBox :=
  match sh with Rectangle xy _ _ _ | Ellipse xy _ _ _ => xy end.

Definition width_of (sh : Shape) : Z :=
  match sh with Rectangle _ _ _ w | Ellipse _ _ _ w => w end.

Definition fill_of (sh : Shape) : Color :=
  match sh with Rectangle _ f _ _ | Ellipse _ f _ _ => f end.

Definition outline_of (sh : Shape) : Color :=
  match sh with Rectangle _ _ o _ | Ellipse _ _ o _ => o end.

(** The [ValueError] a drawing call raises on a box it refuses. *)
Definition refusal (sh : Shape) : PyError :=
  match sh with
  | Rectangle _ _ _ _ => ValueError in_draw_rectangle
  | Ellipse _ _ _ _ => ValueError in_draw_ellipse
  end.

Section painter.
Context `{EllipseRasterizer}.

(** What an accepted drawing call does to the image, and the image that
    results from a list of accepted calls on a transparent canvas of the
    given size: the value [create_printer_icon] returns when no call is
    refused ([create_printer_icon_returns]). *)
Definition paint_shape (img : Image) (sh : Shape) : Image :=
  match sh with
  | Rectangle xy fill outline width =>
      paint_rectangle img xy fill outline width
  | Ellipse xy fill outline width => paint_ellipse img xy fill outline width
  end.

Definition canvas (size : Z) : Image :=
  blank_image RGBA (size, size) (RGBA4 0 0 0 0).

Definition rendered (size : Z) : Image :=
  fold_left paint_shape (shapes size) (canvas size).

(** Which pixels the two passes of a drawing call cover, and the ink each
    pixel gets. *)
Definition fill_cover (sh : Shape) (x y : Z) : bool :=
  match sh with
  | Rectangle xy _ _ _ => in_box (int_box xy) x y
  | Ellipse xy _ _ _ => ellipse_cover (int_box xy) true 0 x y
  end.

Definition outline_cover (sh : Shape) (x y : Z) : bool :=
  match sh with
  | Rectangle xy _ _ width => rect_border (int_box xy) width x y
  | Ellipse xy _ _ width => ellipse_cover (int_box xy) false width x y
  end.

Definition stroke_cover (sh : Shape) (x y : Z) : bool :=
  strokes (fill_of sh) (outline_of sh) (width_of sh) && outline_cover sh x y.

Definition covers (sh : Shape) (x y : Z) : bool :=
  fill_cover sh x y || stroke_cover sh x y.

Definition shape_pixel (sh : Shape) (x y : Z) : Pixel :=
  if stroke_cover sh x y then getink (outline_of sh) else getink (fill_of sh).

(** The painter's view of a pixel: each drawing call in turn replaces the
    value where it covers the pixel. *)
Definition overlay (x y : Z) (p : Pixel) (sh : Shape) : Pixel :=
  if covers sh x y then shape_pixel sh x y else p.

(** The transparent background of the canvas. *)
Definition blank : Pixel := mkPixel 0 0 0 0.

Definition painted (shs : list Shape) (x y : Z) (p : Pixel) : Pixel :=
  fold_left (overlay x y) shs p.

End painter.

(** Vocabulary for the statements about the driver: the progress line of
    one size, and a world with more lines printed. *)
Definition generating (size : Z) : string :=
  "  Generating " +:+ pretty size +:+ "x" +:+ pretty size +:+ " icon...".

Definition with_stdout (w : World) (lines : list string) : World :=
  mkWorld (stdout w ++ lines) (files w) (writable w) (opened w) (script_dir w).

(** The line printed before saving, and the three printed after it. *)
Definition saving (w : World) : string :=
  newline +:+ "Saving to " +:+ icon_file w +:+ "...".

Definition report (w : World) (sizes : list Z) : list string :=
  ["[OK] Icon created successfully!";
   "  Location: " +:+ icon_file w;
   "  Sizes: " +:+
     String.concat ", " (map (fun s => pretty s +:+ "x" +:+ pretty s) sizes)].

(** A renderer that, for every size of the list and in every world,
    returns the image [r] gives for the size and leaves the world as it
    was. *)
Definition renders (render : Z -> Py Image) (r : Z -> Image)
    (sizes : list Z) : Prop :=
  forall s, s ∈ sizes -> forall w, render s w = (w, Ok (r s)).



(** A renderer that agrees with the script's at 256 only, and the images it
    returns. *)
Definition blank_below_256 `{EllipseRasterizer} (size : Z) : Py Image :=
  if decide (size = 256) then create_printer_icon 256
  else Image_new RGBA (size, size) (RGBA4 0 0 0 0).

Definition blank_below_256_image `{EllipseRasterizer} (size : Z) : Image :=
  if decide (size = 256) then rendered 256 else canvas size.

(** Vocabulary for the statements about where the drawing lands. *)

(** A box with its corners in order and inside a canvas of the given size. *)
Definition box_inside (size : Z) (b : Box) : Prop :=
  let '(x0, y0, x1, y1) := b in
  (0 <= x0 <= x1 /\ x1 < size) /\ (0 <= y0 <= y1 /\ y1 < size).

(** A box whose second corner is left of or above its first. *)
Definition box_inverted (b : Box) : Prop :=
  let '(x0, y0, x1, y1) := b in x1 < x0 \/ y1 < y0.

(** A box that keeps one pixel away from every edge of the canvas. *)
Definition box_off_edge (size : Z) (b : Box) : Prop :=
  let '(x0, y0, x1, y1) := b in
  (1 <= x0 <= size - 2 /\ 1 <= x1 <= size - 2) /\
  (1 <= y0 <= size - 2 /\ 1 <= y1 <= size - 2).

(** A box at least as wide as the stroke and higher than it: the outline
    pass then stays inside the box. *)
Definition box_holds_stroke (b : Box) (width : Z) : Prop :=
  let '(x0, y0, x1, y1) := b in
  1 <= width /\ width <= x1 - x0 + 1 /\ width <= y1 - y0.

(** A drawing call whose outline pass stays inside its box, and one whose
    outline pass stays between the left and right edge of its box. *)
Definition stroke_inside (sh : Shape) : Prop :=
  match sh with
  | Rectangle xy _ _ width => box_holds_stroke (int_box xy) width
  | Ellipse _ _ _ _ => True
  end.

Definition stroke_in_columns (sh : Shape) : Prop :=
  match sh with
  | Rectangle xy _ _ width =>
      let '(x0, y0, x1, y1) := int_box xy in
      y0 <= y1 /\ 1 <= width <= x1 - x0 + 1
  | Ellipse xy _ _ _ =>
      let '(x0, y0, x1, y1) := int_box xy in x0 <= x1
  end.

(** A pixel of the first or last row or column. *)
Definition on_edge (size x y : Z) : Prop :=
  x = 0 \/ x = size - 1 \/ y = 0 \/ y = size - 1.

(** Whether some drawing call of the icon covers a pixel. *)
Definition covered `{EllipseRasterizer} (size x y : Z) : bool :=
  existsb (fun sh => covers sh x y) (shapes size).

(** The success line of [main], and the [sizes=] argument of [save]. *)
Definition ok_line : string := "[OK] Icon created successfully!".

Definition pairs (sizes : list Z) : list (Z * Z) :=
  map (fun s => (s, s)) sizes.

End CreateIcon.

(** ** The geometry in binary64

    The same assignments with Python's actual float type, IEEE binary64,
    to compare the rational model against: only the boxes and the stroke
    width, as the C layer receives them after conversion to [int], and the
    comparisons the drawing calls make on the floats. *)

Module Binary64.

Set Warnings "-inexact-float".

Definition float_of_int (z : Z) : float :=
  PrimFloat.of_uint63 (Uint63.of_Z z).

(** Conversion of a finite float to an integer, toward zero. *)
Definition float_trunc (f : float) : Z :=
  match Prim2SF f with
  | S754_finite s m e =>
      let a := if 0 <=? e then Z.shiftl (Z.pos m) e
               else Z.shiftr (Z.pos m) (- e) in
      if s then - a else a
  | _ => 0
  end.

Local Coercion float_of_int : Z >-> float.

Section geometry.
Variable size : Z.

Definition scale : float := (size / 64.0)%float.
Definition line_width : Z := Z.max 1 (float_trunc (2 * scale)).

Definition paper_x : float := (size * 0.25)%float.
Definition paper_y : float := (size * 0.05)%float.
Definition paper_w : float := (size * 0.5)%float.
Definition paper_h : float := (size * 0.3)%float.

Definition body_x : float := (size * 0.15)%float.
Definition body_y : float := (size * 0.25)%float.
Definition body_w : float := (size * 0.7)%float.
Definition body_h : float := (size * 0.5)%float.

Definition panel_y : float := (body_y + body_h * 0.3)%float.

Definition button_x : float := (body_x + body_w * 0.8)%float.
Definition button_y : float := (body_y + body_h * 0.15)%float.
Definition button_r : float := (size * 0.05)%float.

Definition tray_y : float := (body_y + body_h)%float.
Definition tray_h : float := (size * 0.15)%float.

Definition boxes : list (float * float * float * float) :=
  [(paper_x, paper_y, paper_x + paper_w, paper_y + paper_h);
   (body_x, body_y, body_x + body_w, body_y + body_h);
   (body_x + (2 * line_width)%Z, panel_y,
    body_x + body_w - (2 * line_width)%Z,
    body_y + body_h - (2 * line_width)%Z);
   (button_x - button_r, button_y - button_r,
    button_x + button_r, button_y + button_r);
   (body_x, tray_y, body_x + body_w, tray_y + tray_h)]%float.

Definition int_boxes : list PIL.Box :=
  map (fun '(x0, y0, x1, y1) =>
         (float_trunc x0, float_trunc y0, float_trunc x1, float_trunc y1))
      boxes.

(** The test a drawing call makes on its float box. *)
Definition orders : list bool :=
  map (fun '(x0, y0, x1, y1) => PrimFloat.leb x0 x1 && PrimFloat.leb y0 y1)
      boxes.

End geometry.

(** The rational model and binary64 hand the C layer the same integers. *)
Definition agrees (size : Z) : bool :=
  bool_decide
    (map PIL.int_box
       [CreateIcon.paper_box size; CreateIcon.body_box size;
        CreateIcon.panel_box size; CreateIcon.button_box size;
        CreateIcon.tray_box size] = int_boxes size /\
     CreateIcon.line_width size = line_width size).

(** The drawing calls accept the same boxes in both. *)
Definition agrees_on_order (size : Z) : bool :=
  bool_decide
    (map PIL.ordered
       [CreateIcon.paper_box size; CreateIcon.body_box size;
        CreateIcon.panel_box size; CreateIcon.button_box size;
        CreateIcon.tray_box size] = orders size).

End Binary64.

(** ** Reference instances of the library interfaces

    The simplest rasteriser, resampler and serialiser that satisfy the
    laws; they make every definition above executable. *)

Module Reference.
Import PIL Ico.

(** Twice the offset of a pixel from the centre of [lo..hi]. *)
Definition off2 (lo hi v : Z) : Z := 2 * v - lo - hi.

(** A pixel belongs to the filled ellipse inscribed in the box when its
    centre is within half a pixel of the mathematical ellipse. *)
Definition inside (b : Box) (x y : Z) : bool :=
  let '(x0, y0, x1, y1) := b in
  let a := x1 - x0 in
  let c := y1 - y0 in
  in_box b x y &&
  (c * c * (off2 x0 x1 x * off2 x0 x1 x) + a * a * (off2 y0 y1 y * off2 y0 y1 y)
   <=? a * a * (c * c) + a * a + c * c).

Definition ref_ellipse_cover (b : Box) (filled : bool) (w : Z) (x y : Z)
    : bool :=
  let '(x0, y0, x1, y1) := b in
  if filled then inside b x y
  else inside b x y &&
       negb ((2 * w <=? x1 - x0) && (2 * w <=? y1 - y0) &&
             inside (x0 + w, y0 + w, x1 - w, y1 - w) x y).

(** Nearest-neighbour sampling of the source at the centre of each target
    pixel. *)
Definition ref_thumbnail (im : Image) (size : Z * Z) : Image :=
  let blank := mkPixel 0 0 0 0 in
  mkImage (mode im) size.1 size.2
    (imap (fun j _ =>
       imap (fun i _ =>
         default blank
           (getpixel im ((2 * Z.of_nat i + 1) * xsize im / (2 * size.1))
                        ((2 * Z.of_nat j + 1) * ysize im / (2 * size.2))))
         (replicate (Z.to_nat size.1) tt))
       (replicate (Z.to_nat size.2) tt)).

Definition byte_of (z : Z) : Byte.byte :=
  default Byte.x00 (Byte.of_N (Z.to_N (z mod 256))).

(** Per frame: width, height, then the pixels row by row. *)
Definition ref_ico_bytes (frames : list Image) : list Byte.byte :=
  byte_of (Z.of_nat (length frames)) ::
  concat (map (fun im =>
    byte_of (xsize im) :: byte_of (ysize im) ::
    concat (map (fun row =>
      concat (map (fun p =>
        [byte_of (red p); byte_of (green p); byte_of (blue p);
         byte_of (alpha p)]) row)) (rows im))) frames).

(** Two worlds for running the driver: every path writable, and none. *)
Definition w_rw : Sys.World :=
  Sys.mkWorld [] ∅ (fun _ => true) [] "/opt/agent".

Definition w_ro : Sys.World :=
  Sys.mkWorld [] ∅ (fun _ => false) [] "/opt/agent".

End Reference.


Import Sys PIL Ico CreateIcon.

(** ** Proof automation *)

(** Unfolds the geometry of the script down to integer numerators and
    denominators. *)
Ltac qeval :=
  cbv [int_box paper_box body_box panel_box button_box tray_box
       paper_x paper_y paper_w paper_h body_x body_y body_w body_h panel_y
       button_x button_y button_r tray_y tray_h scale line_width
       trunc Qplus Qminus Qmult Qopp Qdiv Qinv inject_Z Qnum Qden
       Pos.mul Pos.add Pos.succ].

Ltac pair_eq :=
  repeat match goal with |- (_, _) = (_, _) => apply (f_equal2 pair) end.

Ltac zdiv :=
  rewrite ?Z.quot_div_nonneg by lia;
  Z.to_euclidean_division_equations; lia.


(** Reduces a statement about the integer box of a drawing call to linear
    arithmetic with integer division. *)
Ltac box_arith :=
  cbv beta iota delta [box_of width_of paper body panel button tray
                       box_inside box_inverted box_off_edge box_holds_stroke];
  qeval; Z.to_euclidean_division_equations; lia.

(** Reduces the test a drawing call makes on its float box to the same. *)
Ltac order_arith :=
  cbv beta iota delta [box_of paper body panel button tray ordered];
  first
    [ apply andb_true_iff; rewrite !Qle_bool_iff
    | let Hord := fresh in
      apply not_true_iff_false; intros Hord;
      apply andb_true_iff in Hord; rewrite !Qle_bool_iff in Hord;
      revert Hord ];
  unfold Qle; qeval; Z.to_euclidean_division_equations; lia.

(** Runs a sequence of statements whose outcomes are known. *)
Ltac py_step := unfold mbind, Py_bind, mret, Py_ret, raise; simpl.

(** * Properties *)

(** ** Pixels after painting *)

Section pixel_facts.
Context `{EllipseRasterizer}.

Lemma pixel_at_paint cover ink im x y :
  pixel_at (paint cover ink im) x y =
  (fun p => if cover x y then ink else p) <$> pixel_at im x y.
Proof.
  unfold pixel_at, paint; simpl.
  case_bool_decide as Hb; [|done].
  rewrite list_lookup_imap.
  destruct (rows im !! Z.to_nat y) as [row|]; simpl; [|done].
  rewrite list_lookup_imap.
  destruct (row !! Z.to_nat x) as [p|]; simpl; [|done].
  by rewrite !Z2Nat.id by lia.
Qed.

Lemma pixel_at_blank m w h c x y :
  0 <= x < w -> 0 <= y < h ->
  pixel_at (blank_image m (w, h) c) x y = Some (getink c).
Proof.
  intros Hx Hy. unfold pixel_at, blank_image; simpl.
  rewrite bool_decide_eq_true_2 by done.
  rewrite lookup_replicate_2 by lia. simpl.
  by rewrite lookup_replicate_2 by lia.
Qed.

Lemma pixel_at_bounds im x y p :
  pixel_at im x y = Some p -> 0 <= x < xsize im /\ 0 <= y < ysize im.
Proof. unfold pixel_at. by case_bool_decide. Qed.

(** [getpixel] reads the stored pixel at the index counted from the start,
    and accepts exactly the indices from [-size] to [size - 1]. *)
Lemma getpixel_nonneg im x y :
  0 <= x -> 0 <= y -> getpixel im x y = pixel_at im x y.
Proof.
  intros Hx Hy. unfold getpixel, wrap.
  destruct (Z.ltb_spec x 0), (Z.ltb_spec y 0); (done || lia).
Qed.

Lemma wrap_bounds n i : 0 <= wrap n i < n <-> - n <= i < n.
Proof. unfold wrap. destruct (Z.ltb_spec i 0); lia. Qed.

Lemma pixel_at_paint_shape img sh x y :
  pixel_at (paint_shape img sh) x y =
  (fun p => overlay x y p sh) <$> pixel_at img x y.
Proof.
  destruct sh as [xy f o w|xy f o w]; simpl;
    unfold paint_rectangle, paint_ellipse, overlay, shape_pixel, covers,
      stroke_cover; simpl;
    destruct (strokes f o w); simpl;
    rewrite ?pixel_at_paint; destruct (pixel_at img x y) as [p|]; simpl;
    try done; f_equal; rewrite ?orb_false_r; try done.
  - destruct (rect_border (int_box xy) w x y); [|by rewrite orb_false_r].
    by rewrite orb_true_r.
  - destruct (ellipse_cover (int_box xy) false w x y);
      by rewrite ?orb_true_r, ?orb_false_r.
Qed.

Lemma pixel_at_fold shs img x y :
  pixel_at (fold_left paint_shape shs img) x y =
  painted shs x y <$> pixel_at img x y.
Proof.
  unfold painted. revert img.
  induction shs as [|sh shs IH]; intros img; simpl.
  - by destruct (pixel_at img x y).
  - rewrite IH, pixel_at_paint_shape. by destruct (pixel_at img x y).
Qed.

Lemma fold_size shs img :
  mode (fold_left paint_shape shs img) = mode img /\
  xsize (fold_left paint_shape shs img) = xsize img /\
  ysize (fold_left paint_shape shs img) = ysize img.
Proof.
  revert img.
  induction shs as [|sh shs IH]; intros img; simpl; [done|].
  destruct (IH (paint_shape img sh)) as (-> & -> & ->).
  destruct sh as [xy f o w|xy f o w]; simpl;
    unfold paint_rectangle, paint_ellipse;
    by destruct (strokes f o w).
Qed.

(** ** Accepted and refused drawing calls *)

Lemma draw_accepted img sh w :
  ordered (box_of sh) = true -> draw img sh w = (w, Ok (paint_shape img sh)).
Proof.
  destruct sh as [xy f o wd|xy f o wd]; simpl; unfold rectangle, ellipse;
    by intros ->.
Qed.

Lemma draw_refused img sh w :
  ordered (box_of sh) = false -> draw img sh w = (w, Raise (refusal sh)).
Proof.
  destruct sh as [xy f o wd|xy f o wd]; simpl; unfold rectangle, ellipse;
    by intros ->.
Qed.

Lemma draw_all_accepted shs img w :
  Forall (fun sh => ordered (box_of sh) = true) shs ->
  draw_all shs img w = (w, Ok (fold_left paint_shape shs img)).
Proof.
  revert img. induction shs as [|sh shs IH]; intros img HF; simpl; [done|].
  apply Forall_cons in HF as [Hsh HF].
  unfold mbind, Py_bind. rewrite draw_accepted by done. by apply IH.
Qed.

Lemma draw_all_refused l1 sh l2 img w :
  Forall (fun sh => ordered (box_of sh) = true) l1 ->
  ordered (box_of sh) = false ->
  draw_all (l1 ++ sh :: l2) img w = (w, Raise (refusal sh)).
Proof.
  revert img. induction l1 as [|sh1 l1 IH]; intros img HF Hsh; simpl.
  - unfold mbind, Py_bind. by rewrite draw_refused.
  - apply Forall_cons in HF as [Hsh1 HF].
    unfold mbind, Py_bind. rewrite draw_accepted by done. by apply IH.
Qed.

(** [create_printer_icon] is its list of drawing calls applied in order to
    a transparent canvas. *)
Lemma create_printer_icon_shapes size :
  create_printer_icon size =
  (img ← Image_new RGBA (size, size) (RGBA4 0 0 0 0);
   draw_all (shapes size) img).
Proof.
  unfold create_printer_icon, shapes.
  destruct (decide (size >= 32)); reflexivity.
Qed.

End pixel_facts.

(** ** The reference instances satisfy the laws *)

Module ReferenceFacts.
Import Reference.

Lemma inside_in_box b x y : inside b x y = true -> in_box b x y = true.
Proof.
  destruct b as [[[x0 y0] x1] y1]. unfold inside.
  by intros [? _]%andb_prop.
Qed.

Lemma inside_centre x0 y0 x1 y1 :
  x0 <= x1 -> y0 <= y1 ->
  inside (x0, y0, x1, y1) (x0 + (x1 - x0) / 2) (y0 + (y1 - y0) / 2) = true.
Proof.
  intros Hx Hy. unfold inside, in_box, off2.
  assert (Ha : 0 <= (x1 - x0) - 2 * ((x1 - x0) / 2) <= 1)
    by (Z.to_euclidean_division_equations; lia).
  assert (Hc : 0 <= (y1 - y0) - 2 * ((y1 - y0) / 2) <= 1)
    by (Z.to_euclidean_division_equations; lia).
  set (hx := (x1 - x0) / 2) in *. set (hy := (y1 - y0) / 2) in *.
  clearbody hx hy.
  rewrite !andb_true_iff, !Z.leb_le.
  repeat split; try lia.
  set (ox := 2 * (x0 + hx) - x0 - x1). set (oy := 2 * (y0 + hy) - y0 - y1).
  assert (Hox : 0 <= ox * ox <= 1).
  { assert (ox = 0 \/ ox = -1) as [->| ->] by (subst ox; lia); lia. }
  assert (Hoy : 0 <= oy * oy <= 1).
  { assert (oy = 0 \/ oy = -1) as [->| ->] by (subst oy; lia); lia. }
  set (A := (x1 - x0) * (x1 - x0)). set (C := (y1 - y0) * (y1 - y0)).
  assert (HA : 0 <= A) by apply Z.square_nonneg.
  assert (HC : 0 <= C) by apply Z.square_nonneg.
  clearbody A C. generalize dependent (ox * ox). generalize dependent (oy * oy).
  intros oy2 Hoy2 ox2 Hox2.
  pose proof (Z.mul_le_mono_nonneg_l ox2 1 C HC (proj2 Hox2)).
  pose proof (Z.mul_le_mono_nonneg_l oy2 1 A HA (proj2 Hoy2)).
  pose proof (Z.mul_nonneg_nonneg A C HA HC).
  lia.
Qed.

Lemma ref_cover_in_box b filled w x y :
  ref_ellipse_cover b filled w x y = true -> in_box b x y = true.
Proof.
  destruct b as [[[x0 y0] x1] y1]. unfold ref_ellipse_cover.
  destruct filled.
  - apply inside_in_box.
  - intros [? _]%andb_prop. by apply inside_in_box.
Qed.

Lemma ref_ring_centre x0 y0 x1 y1 w :
  0 < w -> 2 * w + 1 <= x1 - x0 -> 2 * w + 1 <= y1 - y0 ->
  ref_ellipse_cover (x0, y0, x1, y1) false w
    (x0 + (x1 - x0) / 2) (y0 + (y1 - y0) / 2) = false.
Proof.
  intros Hw Hx Hy. unfold ref_ellipse_cover.
  apply andb_false_intro2, negb_false_iff.
  rewrite !andb_true_iff, !Z.leb_le. split; [lia|].
  replace (x0 + (x1 - x0) / 2)
    with ((x0 + w) + ((x1 - w) - (x0 + w)) / 2)
    by (Z.to_euclidean_division_equations; lia).
  replace (y0 + (y1 - y0) / 2)
    with ((y0 + w) + ((y1 - w) - (y0 + w)) / 2)
    by (Z.to_euclidean_division_equations; lia).
  apply inside_centre; lia.
Qed.

#[export] Instance ref_rasterizer : EllipseRasterizer := {|
  ellipse_cover := ref_ellipse_cover;
  ellipse_cover_in_box := ref_cover_in_box;
  ellipse_fill_centre := fun x0 y0 x1 y1 _ => inside_centre x0 y0 x1 y1;
  ellipse_ring_centre := ref_ring_centre
|}.

#[export] Instance ref_codec : IcoCodec := {|
  thumbnail := ref_thumbnail;
  thumbnail_square := fun im s _ _ => conj eq_refl eq_refl;
  ico_bytes := ref_ico_bytes;
  ico_aborted := []
|}.

End ReferenceFacts.

(** ** Geometry in integers *)

Lemma line_width_quot size : line_width size = Z.max 1 (size ÷ 32).
Proof. qeval. Z.to_euclidean_division_equations; lia. Qed.

Lemma line_width_div size : line_width size = Z.max 1 (size / 32).
Proof.
  rewrite line_width_quot. Z.to_euclidean_division_equations; lia.
Qed.

Lemma paper_int_box s :
  0 <= s ->
  int_box (paper_box s) =
  ((25 * s) / 100, (5 * s) / 100, (75 * s) / 100, (35 * s) / 100).
Proof. intros. qeval. pair_eq; zdiv. Qed.

Lemma body_int_box s :
  0 <= s ->
  int_box (body_box s) =
  ((15 * s) / 100, (25 * s) / 100, (85 * s) / 100, (75 * s) / 100).
Proof. intros. qeval. pair_eq; zdiv. Qed.

Lemma button_int_box s :
  0 <= s ->
  int_box (button_box s) =
  ((66 * s) / 100, (275 * s) / 1000, (76 * s) / 100, (375 * s) / 1000).
Proof. intros. qeval. pair_eq; zdiv. Qed.

Lemma tray_int_box s :
  0 <= s ->
  int_box (tray_box s) =
  ((15 * s) / 100, (75 * s) / 100, (85 * s) / 100, (90 * s) / 100).
Proof. intros. qeval. pair_eq; zdiv. Qed.

(** The stroke widths and the integer boxes of the power button at the four
    sizes [main] renders. *)
Example line_width_at_main_sizes :
  map line_width [16; 32; 48; 256] = [1; 1; 1; 8].
Proof. reflexivity. Qed.

Example button_box_at_main_sizes :
  map (fun size => int_box (button_box size)) [16; 32; 48; 256] =
  [(10, 4, 12, 6); (21, 8, 24, 12); (31, 13, 36, 18); (168, 70, 194, 96)].
Proof. reflexivity. Qed.

(** For every size from 1 to 2000, which covers every size an ICO frame
    can have, the boxes and the stroke width the script computes in
    binary64 are, once converted to integers, those of the rational
    model. *)
Lemma rational_model_matches_binary64 :
  forallb Binary64.agrees (seqZ 1 2000) = true.
Proof. vm_compute. reflexivity. Qed.

(** For every size from 0 to 2000 the drawing calls accept and refuse the
    same boxes in binary64 as in the rational model. *)
Lemma rational_order_matches_binary64 :
  forallb Binary64.agrees_on_order (seqZ 0 2001) = true.
Proof. vm_compute. reflexivity. Qed.

(** ** Which sizes the drawing calls accept *)

Lemma shapes_ordered size :
  6 <= size -> Forall (fun sh => ordered (box_of sh) = true) (shapes size).
Proof.
  intros Hs. unfold shapes.
  destruct (decide (size >= 32)); simpl;
    repeat first [apply Forall_cons_2 | apply Forall_nil_2].
  all: order_arith.
Qed.

Lemma paper_body_ordered size :
  0 <= size ->
  Forall (fun sh => ordered (box_of sh) = true) [paper size; body size].
Proof.
  intros Hs. repeat first [apply Forall_cons_2 | apply Forall_nil_2].
  all: order_arith.
Qed.

Lemma panel_not_ordered size :
  0 <= size < 6 -> ordered (box_of (panel size)) = false.
Proof. intros Hs. order_arith. Qed.

Section render_facts.
Context `{EllipseRasterizer}.

Lemma Image_new_accepted m w h c wd :
  0 <= w -> 0 <= h ->
  Image_new m (w, h) c wd = (wd, Ok (blank_image m (w, h) c)).
Proof.
  intros Hw Hh. unfold Image_new.
  rewrite bool_decide_eq_false_2; [done|]. simpl. lia.
Qed.

Lemma Image_new_negative m w h c wd :
  w < 0 \/ h < 0 ->
  Image_new m (w, h) c wd = (wd, Raise (ValueError in_Image_new)).
Proof. intros Hs. unfold Image_new. by rewrite bool_decide_eq_true_2. Qed.

(** From size 6 on [create_printer_icon] returns, in any world and without
    changing it, the image [rendered]. *)
Lemma create_printer_icon_returns size w :
  6 <= size -> create_printer_icon size w = (w, Ok (rendered size)).
Proof.
  intros Hs. rewrite create_printer_icon_shapes.
  unfold mbind, Py_bind. rewrite Image_new_accepted by lia.
  by rewrite draw_all_accepted by by apply shapes_ordered.
Qed.

(** For the sizes 0 to 5 the call that draws the front panel refuses its
    box. *)
Lemma create_printer_icon_refused size w :
  0 <= size < 6 ->
  create_printer_icon size w = (w, Raise (ValueError in_draw_rectangle)).
Proof.
  intros Hs. rewrite create_printer_icon_shapes.
  unfold mbind, Py_bind. rewrite Image_new_accepted by lia.
  unfold shapes.
  change ([paper size; body size; panel size] ++ ?l)
    with ([paper size; body size] ++ panel size :: l).
  rewrite draw_all_refused; [done|by apply paper_body_ordered; lia|].
  by apply panel_not_ordered.
Qed.

(** For a negative size [Image.new] refuses the size. *)
Lemma create_printer_icon_negative size w :
  size < 0 ->
  create_printer_icon size w = (w, Raise (ValueError in_Image_new)).
Proof.
  intros Hs. rewrite create_printer_icon_shapes.
  unfold mbind, Py_bind. by rewrite Image_new_negative by lia.
Qed.

Lemma create_printer_icon_inv size w w' img :
  create_printer_icon size w = (w', Ok img) ->
  6 <= size /\ w' = w /\ img = rendered size.
Proof.
  intros Hr.
  destruct (Z.lt_ge_cases size 0) as [Hneg|Hnn].
  { by rewrite create_printer_icon_negative in Hr. }
  destruct (Z.lt_ge_cases size 6) as [Hlt|Hge].
  { by rewrite create_printer_icon_refused in Hr. }
  rewrite create_printer_icon_returns in Hr by done.
  by injection Hr as <- <-.
Qed.

Lemma create_printer_icon_world size w :
  (create_printer_icon size w).1 = w.
Proof.
  destruct (Z.lt_ge_cases size 0) as [Hneg|Hnn].
  { by rewrite create_printer_icon_negative. }
  destruct (Z.lt_ge_cases size 6) as [Hlt|Hge].
  { by rewrite create_printer_icon_refused. }
  by rewrite create_printer_icon_returns.
Qed.

End render_facts.

Section painter_facts.
Context `{EllipseRasterizer}.

Lemma painted_app l1 l2 x y p :
  painted (l1 ++ l2) x y p = painted l2 x y (painted l1 x y p).
Proof. unfold painted. apply fold_left_app. Qed.

Lemma painted_uncovered shs x y p :
  existsb (fun sh => covers sh x y) shs = false -> painted shs x y p = p.
Proof.
  unfold painted. revert p.
  induction shs as [|sh shs IH]; intros p; simpl; [done|].
  intros [Hsh Hshs]%orb_false_elim.
  unfold overlay at 2. rewrite Hsh. by apply IH.
Qed.

Lemma painted_last l1 sh l2 x y p :
  covers sh x y = true ->
  existsb (fun sh' => covers sh' x y) l2 = false ->
  painted (l1 ++ sh :: l2) x y p = shape_pixel sh x y.
Proof.
  intros Hsh Hl2. rewrite painted_app.
  change (painted (sh :: l2) x y ?q) with (painted l2 x y (overlay x y q sh)).
  rewrite painted_uncovered by done.
  unfold overlay. by rewrite Hsh.
Qed.

Lemma painted_inks shs x y p :
  painted shs x y p = p \/
  exists sh, sh ∈ shs /\
    (painted shs x y p = getink (fill_of sh) \/
     painted shs x y p = getink (outline_of sh)).
Proof.
  induction shs as [|sh shs IH] using rev_ind; [by left|].
  rewrite painted_app.
  change (painted [sh] x y ?q) with (overlay x y q sh).
  unfold overlay. destruct (covers sh x y).
  - right. exists sh. split; [apply elem_of_app; right; apply list_elem_of_here|].
    unfold shape_pixel. destruct (stroke_cover sh x y); auto.
  - destruct IH as [IH|(sh' & Hin & IH)]; [by left|].
    right. exists sh'. split; [apply elem_of_app; by left|done].
Qed.

Lemma rendered_size size :
  mode (rendered size) = RGBA /\
  xsize (rendered size) = size /\
  ysize (rendered size) = size.
Proof. apply fold_size. Qed.

Lemma pixel_at_rendered size x y :
  0 <= x < size -> 0 <= y < size ->
  pixel_at (rendered size) x y = Some (painted (shapes size) x y blank).
Proof.
  intros Hx Hy. unfold rendered, canvas.
  by rewrite pixel_at_fold, pixel_at_blank.
Qed.

Lemma getpixel_rendered size x y :
  0 <= x < size -> 0 <= y < size ->
  getpixel (rendered size) x y = Some (painted (shapes size) x y blank).
Proof.
  intros Hx Hy. rewrite getpixel_nonneg by lia. by apply pixel_at_rendered.
Qed.

Lemma getpixel_rendered_inv size x y p :
  getpixel (rendered size) x y = Some p ->
  (- size <= x < size /\ - size <= y < size) /\
  p = painted (shapes size) (wrap size x) (wrap size y) blank.
Proof.
  unfold getpixel. destruct (rendered_size size) as (_ & -> & ->).
  intros Hp. pose proof (pixel_at_bounds _ _ _ _ Hp) as Hb.
  destruct (rendered_size size) as (_ & Hxs & Hys). rewrite Hxs, Hys in Hb.
  rewrite pixel_at_rendered in Hp by tauto.
  rewrite !wrap_bounds in Hb. split; [done|]. by injection Hp as <-.
Qed.

End painter_facts.


(** ** The driver *)

Lemma bind_ok {A B} (c : Py A) (k : A -> Py B) w w' a :
  c w = (w', Ok a) -> (c ≫= k) w = k a w'.
Proof. unfold mbind, Py_bind. by intros ->. Qed.

Lemma bind_raise {A B} (c : Py A) (k : A -> Py B) w w' e :
  c w = (w', Raise e) -> (c ≫= k) w = (w', Raise e).
Proof. unfold mbind, Py_bind. by intros ->. Qed.

Section driver_facts.
Context `{EllipseRasterizer} `{IcoCodec}.

Lemma renders_cons render r s sizes :
  renders render r (s :: sizes) ->
  (forall w, render s w = (w, Ok (r s))) /\ renders render r sizes.
Proof.
  intros Hr. split.
  - apply Hr, list_elem_of_here.
  - intros s' Hin. by apply Hr, list_elem_of_further.
Qed.

Lemma for_each_generate render r sizes (acc : list Image) w :
  renders render r sizes ->
  for_each sizes (fun size icons =>
    print (generating size);;
    icon ← render size;
    mret (icons ++ [icon])) acc w =
  (with_stdout w (map generating sizes), Ok (acc ++ map r sizes)).
Proof.
  revert acc w. induction sizes as [|s sizes IH]; intros acc w Hr.
  - simpl. unfold with_stdout. rewrite !app_nil_r. by destruct w.
  - apply renders_cons in Hr as [Hs Hr].
    change (for_each (s :: sizes) ?b acc)
      with (acc' ← b s acc; for_each sizes b acc').
    erewrite bind_ok;
      [|erewrite bind_ok; [|reflexivity];
        erewrite bind_ok; [|apply Hs]; reflexivity].
    rewrite IH by done. unfold with_stdout; simpl.
    by rewrite <- !app_assoc.
Qed.

Lemma generate_spec render r sizes w :
  renders render r sizes ->
  generate render sizes w =
  (with_stdout w (map generating sizes), Ok (map r sizes)).
Proof. apply (for_each_generate render r sizes []). Qed.

Lemma create_printer_icon_renders sizes :
  Forall (fun s => 6 <= s) sizes -> renders create_printer_icon rendered sizes.
Proof.
  intros HF s Hin w. rewrite Forall_forall in HF.
  by apply create_printer_icon_returns, HF.
Qed.

Lemma main_sizes_render :
  renders create_printer_icon rendered [16; 32; 48; 256].
Proof.
  apply create_printer_icon_renders.
  repeat first [apply Forall_cons_2 | apply Forall_nil_2]; lia.
Qed.

End driver_facts.

(** ** Where the outline pass lands *)

Lemma in_box_true_iff x0 y0 x1 y1 x y :
  in_box (x0, y0, x1, y1) x y = true <->
  (Z.min x0 x1 <= x <= Z.max x0 x1) /\ (Z.min y0 y1 <= y <= Z.max y0 y1).
Proof. unfold in_box. rewrite !andb_true_iff, !Z.leb_le. lia. Qed.

Lemma in_box_false_iff x0 y0 x1 y1 x y :
  in_box (x0, y0, x1, y1) x y = false <->
  x < Z.min x0 x1 \/ Z.max x0 x1 < x \/ y < Z.min y0 y1 \/ Z.max y0 y1 < y.
Proof. rewrite <- not_true_iff_false, in_box_true_iff. lia. Qed.

(** The pixels of the outline pass, in arithmetic. *)
Lemma rect_border_true_iff x0 y0 x1 y1 w x y :
  y0 <= y1 ->
  rect_border (x0, y0, x1, y1) w x y = true <->
  ((Z.min x0 x1 <= x <= Z.max x0 x1) /\
   (y0 <= y < y0 + w \/ y1 - w < y <= y1)) \/
  ((x1 - w < x <= x1 \/ x0 <= x < x0 + w) /\
   (y0 + w <= y < y1 - w + 1 \/
    (y1 - w + 1 < y0 + w /\ y1 - w + 1 < y <= y0 + w))).
Proof.
  intros Hy. unfold rect_border.
  rewrite (Z.min_l y0 y1), (Z.max_r y0 y1) by lia.
  destruct (Z.leb_spec (y0 + w) (y1 - w + 1));
    rewrite !orb_true_iff, !andb_true_iff, !orb_true_iff, !andb_true_iff,
      !Z.leb_le, !Z.ltb_lt; lia.
Qed.

Lemma rect_border_in_columns x0 y0 x1 y1 w x y :
  y0 <= y1 -> 1 <= w <= x1 - x0 + 1 ->
  rect_border (x0, y0, x1, y1) w x y = true -> x0 <= x <= x1.
Proof. intros Hy Hw. rewrite rect_border_true_iff by done. lia. Qed.

Lemma rect_border_in_box b w x y :
  box_holds_stroke b w -> rect_border b w x y = true -> in_box b x y = true.
Proof.
  destruct b as [[[x0 y0] x1] y1]. intros (Hw & Hx & Hy).
  rewrite rect_border_true_iff, in_box_true_iff by lia. lia.
Qed.

(** On a box of one row the outline pass of width 1 paints the two end
    pixels of the row below the box. *)
Lemma rect_border_spills x0 x1 y :
  x0 <= x1 ->
  rect_border (x0, y, x1, y) 1 x0 (y + 1) = true /\
  rect_border (x0, y, x1, y) 1 x1 (y + 1) = true /\
  in_box (x0, y, x1, y) x0 (y + 1) = false.
Proof.
  intros Hx. rewrite !rect_border_true_iff, in_box_false_iff by lia. lia.
Qed.

Section stroke_facts.
Context `{EllipseRasterizer}.

Lemma covers_in_box sh x y :
  stroke_inside sh ->
  covers sh x y = true -> in_box (int_box (box_of sh)) x y = true.
Proof.
  unfold covers, stroke_cover.
  destruct sh as [xy f o w|xy f o w]; simpl; intros Hin.
  - intros [Hc|Hc]%orb_true_iff; [done|].
    apply andb_true_iff in Hc as [_ Hc]. by apply rect_border_in_box in Hc.
  - intros [Hc|Hc]%orb_true_iff.
    + by apply ellipse_cover_in_box in Hc.
    + apply andb_true_iff in Hc as [_ Hc]. by apply ellipse_cover_in_box in Hc.
Qed.

Lemma covers_in_columns sh x y :
  stroke_in_columns sh ->
  covers sh x y = true ->
  (int_box (box_of sh)).1.1.1 <= x <= (int_box (box_of sh)).1.2.
Proof.
  unfold covers, stroke_cover.
  destruct sh as [xy f o w|xy f o w]; simpl;
    destruct (int_box xy) as [[[x0 y0] x1] y1]; simpl; intros Hin.
  - intros [Hc|Hc]%orb_true_iff.
    + apply in_box_true_iff in Hc. lia.
    + apply andb_true_iff in Hc as [_ Hc].
      apply rect_border_in_columns in Hc; lia.
  - intros [Hc|Hc]%orb_true_iff.
    + apply ellipse_cover_in_box, in_box_true_iff in Hc. lia.
    + apply andb_true_iff in Hc as [_ Hc].
      apply ellipse_cover_in_box, in_box_true_iff in Hc. lia.
Qed.

End stroke_facts.

Ltac stroke_arith :=
  cbv beta iota delta [stroke_inside stroke_in_columns
                       paper body panel button tray box_holds_stroke];
  qeval; Z.to_euclidean_division_equations; lia.

Lemma shapes_stroke_inside size :
  7 <= size -> Forall stroke_inside (shapes size).
Proof.
  intros Hs. unfold shapes.
  destruct (decide (size >= 32)); simpl;
    repeat first [apply Forall_cons_2 | apply Forall_nil_2];
    try exact I.
  all: stroke_arith.
Qed.

Lemma tray_stroke_inside size : 6 <= size -> stroke_inside (tray size).
Proof. intros Hs. stroke_arith. Qed.

Lemma shapes_stroke_in_columns size :
  6 <= size -> Forall stroke_in_columns (shapes size).
Proof.
  intros Hs. unfold shapes.
  destruct (decide (size >= 32)); simpl;
    repeat first [apply Forall_cons_2 | apply Forall_nil_2].
  all: stroke_arith.
Qed.

(** At size 6 the front panel is one row high and its outline pass leaves
    the box: the stroke is clipped by nothing but the canvas. *)
Example panel_outline_at_size_6 :
  int_box (box_of (panel 6)) = (2, 2, 3, 2) /\ width_of (panel 6) = 1 /\
  rect_border (2, 2, 3, 2) 1 2 3 = true /\
  rect_border (2, 2, 3, 2) 1 3 3 = true /\
  in_box (2, 2, 3, 2) 2 3 = false.
Proof. repeat split. Qed.

(** * The claims *)

(** C2, as the code has it.  For every positive size the scale is
    [size / 64] and
    the stroke width of the output paper, the printer body and the paper
    tray is [max 1 (int (2 * scale))]: the product is truncated, which for
    a positive size is the integer quotient [size / 32], so the width is
    [max 1 (size / 32)]. *)
Theorem line_width_truncates (size : Z) :
  0 < size ->
  (scale size == inject_Z size / 64)%Q /\
  line_width size = Z.max 1 (trunc (2 * scale size)) /\
  line_width size = Z.max 1 (size / 32) /\
  width_of (paper size) = line_width size /\
  width_of (body size) = line_width size /\
  width_of (tray size) = line_width size.
Proof.
  intros _. repeat split.
  - unfold scale. apply Qmult_comp; [reflexivity|]. reflexivity.
  - apply line_width_div.
Qed.

(** [line_width_truncates] at size 48, where truncating and rounding
    differ. *)
Lemma line_width_truncates_witness :
  line_width 48 = Z.max 1 (trunc (2 * scale 48)) /\
  line_width 48 = Z.max 1 (48 / 32) /\
  width_of (paper 48) = 1.
Proof.
  destruct (line_width_truncates 48) as (_ & Ht & Hd & Hp & _); [lia|].
  split; [exact Ht|]. split; [exact Hd|]. rewrite Hp, Hd. reflexivity.
Defined.

(** C2, as the specification words it, fails: at size 48 the product
    [2 * scale] is 1.5, which rounds to 2 and truncates to 1. *)
Lemma line_width_is_not_rounded :
  line_width 48 <> Z.max 1 (py_round (2 * scale 48)).
Proof. vm_compute. discriminate. Qed.

Section pixel_lemmas.
Context `{EllipseRasterizer}.

Lemma shapes_large size :
  32 <= size ->
  shapes size = [paper size; body size; panel size] ++ button size :: [tray size].
Proof. intros. unfold shapes. by rewrite decide_True by lia. Qed.

Lemma shapes_small size :
  size < 32 -> shapes size = [paper size; body size; panel size; tray size].
Proof. intros. unfold shapes. by rewrite decide_False by lia. Qed.

Lemma shapes_cases size sh :
  sh ∈ shapes size ->
  sh = paper size \/ sh = body size \/ sh = panel size \/
  (sh = button size /\ 32 <= size) \/ sh = tray size.
Proof.
  unfold shapes. intros Hin.
  repeat (apply elem_of_app in Hin as [Hin|Hin] ||
          apply elem_of_cons in Hin as [->|Hin] ||
          apply elem_of_nil in Hin as []); auto.
  destruct (decide (size >= 32)).
  - apply list_elem_of_singleton in Hin as ->. right. right. right. left.
    split; [done|lia].
  - by apply elem_of_nil in Hin.
Qed.

(** Every colour the script draws with is opaque. *)
Lemma shapes_opaque size sh :
  sh ∈ shapes size ->
  alpha (getink (fill_of sh)) = 255 /\ alpha (getink (outline_of sh)) = 255.
Proof.
  intros Hin.
  by destruct (shapes_cases size sh Hin) as [->|[->|[->|[[-> _]| ->]]]].
Qed.

Lemma shapes_all_opaque size :
  Forall (fun sh => alpha (getink (fill_of sh)) = 255 /\
                    alpha (getink (outline_of sh)) = 255) (shapes size).
Proof. apply Forall_forall. intros sh Hin. by apply (shapes_opaque size). Qed.

Lemma painted_covered shs x y p :
  Forall (fun sh => alpha (getink (fill_of sh)) = 255 /\
                    alpha (getink (outline_of sh)) = 255) shs ->
  existsb (fun sh => covers sh x y) shs = true ->
  alpha (painted shs x y p) = 255.
Proof.
  induction shs as [|sh shs IH] using rev_ind; [done|].
  intros [Hshs Hsh]%Forall_app. apply Forall_cons in Hsh as [[Hf Ho] _].
  rewrite existsb_app, painted_app. simpl. rewrite orb_false_r.
  change (fold_left (overlay x y) [sh] ?q) with (overlay x y q sh).
  unfold painted at 1. simpl. unfold overlay at 1.
  destruct (covers sh x y) eqn:Hc.
  - intros _. unfold shape_pixel. by destruct (stroke_cover sh x y).
  - rewrite orb_false_r. by apply IH.
Qed.

(** A pixel is opaque exactly when some drawing call covers it. *)
Lemma painted_opaque_iff size x y :
  alpha (painted (shapes size) x y blank) = 255 <-> covered size x y = true.
Proof.
  unfold covered.
  destruct (existsb (fun sh => covers sh x y) (shapes size)) eqn:Hc.
  - by rewrite (painted_covered _ _ _ _ (shapes_all_opaque size) Hc).
  - by rewrite painted_uncovered by done.
Qed.

(** From size 6 on no drawing call reaches left or right of the printer
    body, and the body covers every pixel of its box. *)
Lemma covers_in_body_columns size sh x y :
  6 <= size -> sh ∈ shapes size -> covers sh x y = true ->
  (15 * size) / 100 <= x <= (85 * size) / 100.
Proof.
  intros Hs Hin Hc.
  pose proof (shapes_stroke_in_columns size Hs) as HF.
  rewrite Forall_forall in HF.
  apply covers_in_columns in Hc; [|by apply HF].
  revert Hc. clear HF.
  destruct (shapes_cases size sh Hin) as [->|[->|[->|[[-> _]| ->]]]];
    cbv beta iota delta [box_of paper body panel button tray fst snd];
    qeval; cbv beta iota delta [fst snd];
    Z.to_euclidean_division_equations; lia.
Qed.

Lemma body_covers size x y :
  0 <= size ->
  (15 * size) / 100 <= x <= (85 * size) / 100 ->
  (25 * size) / 100 <= y <= (75 * size) / 100 ->
  covers (body size) x y = true.
Proof.
  intros Hs Hx Hy. unfold covers, fill_cover, body.
  rewrite body_int_box by done. apply orb_true_iff. left.
  apply in_box_true_iff. lia.
Qed.

Lemma body_in_shapes size : body size ∈ shapes size.
Proof.
  unfold shapes. apply elem_of_app. left.
  apply list_elem_of_further, list_elem_of_here.
Qed.

Lemma panel_in_shapes size : panel size ∈ shapes size.
Proof.
  unfold shapes. apply elem_of_app. left.
  do 2 apply list_elem_of_further. apply list_elem_of_here.
Qed.

Lemma body_row_opaque_iff size x y :
  6 <= size ->
  (25 * size) / 100 <= y <= (75 * size) / 100 ->
  covered size x y = true <-> (15 * size) / 100 <= x <= (85 * size) / 100.
Proof.
  intros Hs Hy. unfold covered. split.
  - intros (sh & Hin & Hc)%existsb_exists.
    apply list_elem_of_In in Hin. by apply (covers_in_body_columns size sh x y).
  - intros Hx. apply existsb_exists. exists (body size).
    split; [apply list_elem_of_In, body_in_shapes|].
    apply body_covers; [lia|done..].
Qed.

End pixel_lemmas.

(** C8, as the code has it.  From size 6 on the printer body is drawn
    second, into the box [0.15 S, 0.25 S, 0.85 S, 0.75 S], whose corners
    the drawing layer truncates to whole pixels.  In the image returned,
    on every row of that box a pixel is opaque exactly when its column
    lies between the truncated left and right edge, both included.  The
    body is therefore [W = int(0.85 S) - int(0.15 S) + 1] pixels wide, and
    [0.7 S < W < 0.7 S + 2]: the ratio of body width to image width lies
    strictly between 0.7 and 0.7 + 2/S. *)
Theorem body_width_in_pixels `{EllipseRasterizer} (size : Z) (w : World) :
  6 <= size ->
  let x0 := (15 * size) / 100 in
  let x1 := (85 * size) / 100 in
  shapes size !! 1%nat = Some (body size) /\
  box_of (body size) = body_box size /\
  int_box (body_box size) = (x0, (25 * size) / 100, x1, (75 * size) / 100) /\
  (exists img,
     create_printer_icon size w = (w, Ok img) /\
     forall x y,
       0 <= x < size -> (25 * size) / 100 <= y <= (75 * size) / 100 ->
       exists p, getpixel img x y = Some p /\
                 (alpha p = 255 <-> x0 <= x <= x1)) /\
  7 * size < 10 * (x1 - x0 + 1) < 7 * size + 20.
Proof.
  intros Hs x0 x1. split; [done|]. split; [done|].
  split; [apply body_int_box; lia|]. split.
  - exists (rendered size). split; [by apply create_printer_icon_returns|].
    intros x y Hx Hy. eexists. split.
    + apply getpixel_rendered; [done|].
      Z.to_euclidean_division_equations; lia.
    + rewrite painted_opaque_iff. by apply body_row_opaque_iff.
  - subst x0 x1. Z.to_euclidean_division_equations; lia.
Qed.








Section button_facts.
Context `{EllipseRasterizer}.

(** The centre pixel of the button's box keeps the button's fill. *)
Lemma button_centre_green size :
  32 <= size ->
  exists x y,
    (0 <= x < size /\ 0 <= y < size) /\
    in_box (int_box (button_box size)) x y = true /\
    painted (shapes size) x y blank = getink button_color.
Proof.
  intros Hs.
  set (x0 := (66 * size) / 100). set (y0 := (275 * size) / 1000).
  set (x1 := (76 * size) / 100). set (y1 := (375 * size) / 1000).
  assert (Hbox : int_box (button_box size) = (x0, y0, x1, y1))
    by (apply button_int_box; lia).
  assert (Hx01 : x0 <= x1) by (subst x0 x1; zdiv).
  assert (Hy01 : y0 <= y1) by (subst y0 y1; zdiv).
  set (w := Z.max 1 (line_width size - 1)).
  assert (Hw : 0 < w) by (subst w; lia).
  assert (Hwx : 2 * w + 1 <= x1 - x0).
  { subst w x0 x1. rewrite line_width_div. zdiv. }
  assert (Hwy : 2 * w + 1 <= y1 - y0).
  { subst w y0 y1. rewrite line_width_div. zdiv. }
  exists (x0 + (x1 - x0) / 2), (y0 + (y1 - y0) / 2).
  assert (Hcx : x0 <= x0 + (x1 - x0) / 2 <= x1) by zdiv.
  assert (Hcy : y0 <= y0 + (y1 - y0) / 2 <= y1) by zdiv.
  split; [|split].
  - subst x0 x1 y0 y1. split; zdiv.
  - rewrite Hbox. apply in_box_true_iff. lia.
  - rewrite shapes_large by done. rewrite painted_last.
    + unfold shape_pixel, stroke_cover, outline_cover, button, width_of,
        fill_of, outline_of. rewrite Hbox.
      fold w. rewrite ellipse_ring_centre by done.
      by rewrite andb_false_r.
    + unfold covers, fill_cover, button. rewrite Hbox.
      by rewrite ellipse_fill_centre.
    + unfold existsb. rewrite orb_false_r.
      apply not_true_is_false. intros Hc.
      apply covers_in_box in Hc; [|apply tray_stroke_inside; lia].
      revert Hc. apply not_true_iff_false.
      unfold box_of, tray. rewrite tray_int_box by lia.
      apply in_box_false_iff.
      revert Hcy. subst y0 y1. zdiv.
Qed.

End button_facts.

Section pixel_claims.
Context `{EllipseRasterizer}.

(** C4.  For a positive size the power button, an ellipse in the box of
    radius [0.05 * size] around
    [(body_x + 0.8 * body_w, body_y + 0.15 * body_h)] filled with green
    (100, 200, 100), is among the drawing calls exactly when the size is
    at least 32.  From size 32 on [create_printer_icon] returns an image
    in which some pixel inside the button's box has the green fill; below
    32 no pixel of an image it returns has it, and from 6 to 31 it does
    return one. *)
Theorem power_button_from_32 (size : Z) (w : World) :
  0 < size ->
  (button size ∈ shapes size <-> 32 <= size) /\
  button size =
    Ellipse (button_x size - button_r size, button_y size - button_r size,
             button_x size + button_r size, button_y size + button_r size)%Q
      (RGB 100 200 100) outline_color (Z.max 1 (line_width size - 1)) /\
  (button_x size == body_x size + 0.8 * body_w size)%Q /\
  (button_y size == body_y size + 0.15 * body_h size)%Q /\
  (button_r size == 0.05 * inject_Z size)%Q /\
  (32 <= size ->
   exists img x y,
     create_printer_icon size w = (w, Ok img) /\
     in_box (int_box (button_box size)) x y = true /\
     getpixel img x y = Some (getink button_color)) /\
  (size < 32 ->
   (6 <= size -> exists img, create_printer_icon size w = (w, Ok img)) /\
   forall w' img x y,
     create_printer_icon size w = (w', Ok img) ->
     getpixel img x y <> Some (getink button_color)).
Proof.
  intros Hpos. repeat split.
  - intros Hin. destruct (decide (32 <= size)) as [|Hlt]; [done|].
    rewrite shapes_small in Hin by lia.
    repeat (apply elem_of_cons in Hin as [Hin|Hin]; [discriminate Hin|]).
    by apply elem_of_nil in Hin.
  - intros Hge. rewrite shapes_large by done.
    apply elem_of_app. right. apply list_elem_of_here.
  - unfold button_x. ring.
  - unfold button_y. ring.
  - unfold button_r. ring.
  - intros Hge.
    destruct (button_centre_green size Hge) as (x & y & [Hx Hy] & Hbox & Hp).
    exists (rendered size), x, y.
    split; [apply create_printer_icon_returns; lia|].
    split; [done|]. by rewrite getpixel_rendered, Hp.
  - intros Hge. exists (rendered size). by apply create_printer_icon_returns.
  - intros w' img x y Hr Hp.
    apply create_printer_icon_inv in Hr as (_ & _ & ->).
    apply getpixel_rendered_inv in Hp as [_ Hp].
    rewrite shapes_small in Hp by done.
    destruct (painted_inks [paper size; body size; panel size; tray size]
                (wrap size x) (wrap size y) blank) as [Hb|(sh & Hin & Hb)].
    + rewrite Hb in Hp. discriminate Hp.
    + repeat (apply elem_of_cons in Hin as [->|Hin]);
        [..|by apply elem_of_nil in Hin];
        destruct Hb as [Hb|Hb]; rewrite Hb in Hp; discriminate Hp.
Qed.

End pixel_claims.

Section render_claims.
Context `{EllipseRasterizer} `{IcoCodec}.

Lemma generate_twice_returns size w :
  6 <= size ->
  generate create_printer_icon [size; size] w =
  (with_stdout w [generating size; generating size],
   Ok [rendered size; rendered size]).
Proof.
  intros Hs. rewrite (generate_spec create_printer_icon rendered); [done|].
  apply create_printer_icon_renders.
  repeat first [apply Forall_cons_2 | apply Forall_nil_2]; lia.
Qed.

Lemma generate_raises render s sizes e w :
  (forall w', render s w' = (w', Raise e)) ->
  generate render (s :: sizes) w = (with_stdout w [generating s], Raise e).
Proof.
  intros Hr. unfold generate.
  change (for_each (s :: sizes) ?b []) with (acc ← b s []; for_each sizes b acc).
  erewrite bind_raise; [done|].
  erewrite bind_ok; [|reflexivity].
  erewrite bind_raise; [|apply Hr]. done.
Qed.

(** C6, as the code has it.  [create_printer_icon] consults nothing but the
    size: in any two worlds it ends with the same outcome, and it leaves
    the world as it found it.  From size 6 on the outcome is an image, the
    same in both worlds, and two calls in one run collect that image twice;
    a pixel of it that no drawing call covers is fully transparent black.
    Below size 6 the outcome is an exception and the two calls of a run
    collect nothing: the first one ends the run. *)
Theorem render_deterministic (size : Z) (w1 w2 : World) :
  (create_printer_icon size w1).1 = w1 /\
  (create_printer_icon size w1).2 = (create_printer_icon size w2).2 /\
  (6 <= size ->
   exists img,
     create_printer_icon size w1 = (w1, Ok img) /\
     create_printer_icon size w2 = (w2, Ok img) /\
     (generate create_printer_icon [size; size] w1).2 = Ok [img; img] /\
     forall x y,
       0 <= x < size -> 0 <= y < size -> covered size x y = false ->
       getpixel img x y = Some (mkPixel 0 0 0 0)) /\
  (size < 6 ->
   exists e,
     create_printer_icon size w1 = (w1, Raise e) /\
     create_printer_icon size w2 = (w2, Raise e) /\
     (generate create_printer_icon [size; size] w1).2 = Raise e).
Proof.
  split; [apply create_printer_icon_world|].
  destruct (Z.lt_ge_cases size 6) as [Hlt|Hge].
  - assert (He : exists e, forall w,
              create_printer_icon size w = (w, Raise e)).
    { destruct (Z.lt_ge_cases size 0).
      - eexists. intros w. by apply create_printer_icon_negative.
      - eexists. intros w. by apply create_printer_icon_refused. }
    destruct He as [e He]. split; [by rewrite !He|].
    split; [lia|]. intros _. exists e.
    split; [done|]. split; [done|].
    by rewrite (generate_raises _ _ _ e).
  - split; [by rewrite !create_printer_icon_returns|].
    split; [|lia]. intros _. exists (rendered size).
    split; [by apply create_printer_icon_returns|].
    split; [by apply create_printer_icon_returns|].
    split; [by rewrite generate_twice_returns|].
    intros x y Hx Hy Hun. rewrite getpixel_rendered by done.
    by rewrite painted_uncovered.
Qed.

(** C7.  [create_printer_icon] is the transparent canvas with the drawing
    calls applied in list order: paper, body, panel, button (from size 32),
    tray.  From size 6 on it returns an image, and in an image it returns
    the value of every pixel is the one given by the last call that covers
    it, whatever earlier calls covered it too; a call covers the pixels of
    its fill pass and of its outline pass. *)
Theorem later_shape_wins (size : Z) (l1 l2 : list Shape) (sh : Shape)
    (x y : Z) (w : World) :
  shapes size = l1 ++ sh :: l2 ->
  0 <= x < size -> 0 <= y < size ->
  covers sh x y = true ->
  existsb (fun sh' => covers sh' x y) l2 = false ->
  shapes size =
    [paper size; body size; panel size] ++
    (if decide (size >= 32) then [button size] else []) ++ [tray size] /\
  create_printer_icon size =
    (img ← Image_new RGBA (size, size) (RGBA4 0 0 0 0);
     draw_all (shapes size) img) /\
  (6 <= size -> exists img, create_printer_icon size w = (w, Ok img)) /\
  (forall w' img,
     create_printer_icon size w = (w', Ok img) ->
     getpixel img x y = Some (shape_pixel sh x y)).
Proof.
  intros Hsplit Hx Hy Hsh Hl2. split; [done|].
  split; [apply create_printer_icon_shapes|]. split.
  - intros Hs. eexists. by apply create_printer_icon_returns.
  - intros w' img Hr. apply create_printer_icon_inv in Hr as (_ & _ & ->).
    rewrite getpixel_rendered by done. rewrite Hsplit.
    by rewrite painted_last.
Qed.

(** C10.  The canvas starts as (0, 0, 0, 0), every fill and outline colour
    of every drawing call is opaque, and so every pixel of an image that
    [create_printer_icon] returns has alpha 0 or alpha 255. *)
Theorem alpha_is_0_or_255 (size : Z) (w w' : World) (img : Image)
    (x y : Z) (p : Pixel) :
  create_printer_icon size w = (w', Ok img) ->
  getpixel img x y = Some p ->
  (alpha p = 0 \/ alpha p = 255) /\
  alpha (getink (RGBA4 0 0 0 0)) = 0 /\
  Forall (fun sh => alpha (getink (fill_of sh)) = 255 /\
                    alpha (getink (outline_of sh)) = 255) (shapes size).
Proof.
  intros Hr Hp. split; [|split; [done|]].
  - apply create_printer_icon_inv in Hr as (_ & _ & ->).
    apply getpixel_rendered_inv in Hp as (_ & ->).
    destruct (painted_inks (shapes size) (wrap size x) (wrap size y) blank)
      as [->|(sh & Hin & [->| ->])]; [by left|right..];
      by apply (shapes_opaque size sh).
  - apply shapes_all_opaque.
Qed.

End render_claims.

Section save_facts.
Context `{IcoCodec}.

Lemma save_icons_last_only icons icons' sizes w :
  last icons = last icons' ->
  save_icons icons sizes w = save_icons icons' sizes w.
Proof.
  intros Hlast. unfold save_icons, last_item.
  by rewrite Hlast.
Qed.


Lemma save_icons_writable icons im sizes w :
  last icons = Some im ->
  writable w (icon_file w) = true ->
  ico_frames im (pairs sizes) <> [] ->
  save_icons icons sizes w =
  (mkWorld (stdout w ++ saving w :: report w sizes)
     (<[icon_file w := ico_bytes (ico_frames im (pairs sizes))]> (files w))
     (writable w) (opened w ++ [icon_file w]) (script_dir w), Ok tt).
Proof.
  intros Hlast Hw Hfr.
  unfold save_icons, last_item. rewrite Hlast.
  unfold mbind, Py_bind, icon_path, print, Image_save, mret, Py_ret; simpl.
  change (icon_file (mkWorld _ _ _ _ (script_dir w))) with (icon_file w).
  rewrite Hw. fold (pairs sizes).
  destruct (ico_frames im (pairs sizes)) as [|fr frs]; [done|].
  unfold report; simpl. by rewrite <- !app_assoc.
Qed.


Lemma save_icons_readonly icons im sizes w :
  last icons = Some im ->
  writable w (icon_file w) = false ->
  save_icons icons sizes w =
  (mkWorld (stdout w ++ [saving w]) (files w) (writable w)
     (opened w ++ [icon_file w]) (script_dir w),
   Raise (OSError (icon_file w))).
Proof.
  intros Hlast Hw.
  unfold save_icons, last_item. rewrite Hlast.
  unfold mbind, Py_bind, icon_path, print, Image_save, mret, Py_ret; simpl.
  by rewrite Hw.
Qed.

Lemma ico_frames_256 im :
  xsize im = 256 -> ysize im = 256 ->
  ico_frames im (pairs [16; 32; 48; 256]) =
  [thumbnail im (16, 16); thumbnail im (32, 32); thumbnail im (48, 48); im].
Proof.
  intros Hx Hy. unfold ico_frames. rewrite Hx, Hy.
  change (sorted_set (pairs [16; 32; 48; 256]))
    with [(16, 16); (32, 32); (48, 48); (256, 256)].
  reflexivity.
Qed.

End save_facts.

Section driver_claims.
Context `{EllipseRasterizer} `{IcoCodec}.

Lemma main_package : main = package create_printer_icon [16; 32; 48; 256].
Proof. reflexivity. Qed.

Lemma package_unfold render r sizes w :
  renders render r sizes ->
  package render sizes w =
  save_icons (map r sizes) sizes
    (with_stdout w ("Creating printer icon..." :: map generating sizes)).
Proof.
  intros Hr. unfold package.
  erewrite bind_ok; [|reflexivity].
  erewrite bind_ok; [|by apply (generate_spec render r)].
  unfold with_stdout; simpl. by rewrite <- app_assoc.
Qed.


Lemma rendered_256_frames :
  ico_frames (rendered 256) (pairs [16; 32; 48; 256]) =
  [thumbnail (rendered 256) (16, 16); thumbnail (rendered 256) (32, 32);
   thumbnail (rendered 256) (48, 48); rendered 256].
Proof.
  destruct (rendered_size 256) as (_ & Hx & Hy). by apply ico_frames_256.
Qed.

Lemma main_writable w :
  writable w (icon_file w) = true ->
  main w =
    (mkWorld
       (stdout w ++ "Creating printer icon..." ::
          map generating [16; 32; 48; 256] ++
          saving w :: report w [16; 32; 48; 256])
       (<[icon_file w :=
            ico_bytes (ico_frames (rendered 256) (pairs [16; 32; 48; 256]))]>
          (files w))
       (writable w) (opened w ++ [icon_file w]) (script_dir w),
     Ok tt).
Proof.
  intros Hw.
  rewrite main_package, (package_unfold _ rendered) by apply main_sizes_render.
  rewrite (save_icons_writable _ (rendered 256)); [|done|done|].
  - unfold with_stdout; simpl. by rewrite <- app_assoc.
  - by rewrite rendered_256_frames.
Qed.

Lemma main_readonly w :
  writable w (icon_file w) = false ->
  main w =
    (mkWorld
       (stdout w ++ "Creating printer icon..." ::
          map generating [16; 32; 48; 256] ++ [saving w])
       (files w) (writable w) (opened w ++ [icon_file w]) (script_dir w),
     Raise (OSError (icon_file w))).
Proof.
  intros Hw.
  rewrite main_package, (package_unfold _ rendered) by apply main_sizes_render.
  rewrite (save_icons_readonly _ (rendered 256)) by done.
  unfold with_stdout; simpl. by rewrite <- app_assoc.
Qed.

(** C1, as the code has it.  When the output path is writable, [main]
    renders the sizes 16, 32, 48, 256 once each and in that order,
    collecting the four images, and hands only the last of them, the
    256x256 render, to the ICO writer together with the four sizes.  The
    file written has one frame per size: the 256x256 frame is the 256x256
    render itself, and the 16x16, 32x32 and 48x48 frames are downscaled
    copies of that render made by the writer. *)
Theorem main_saves_largest_render (w : World) :
  writable w (icon_file w) = true ->
  let r := rendered in
  let frames := [thumbnail (r 256) (16, 16); thumbnail (r 256) (32, 32);
                 thumbnail (r 256) (48, 48); r 256] in
  (forall s w', s ∈ [16; 32; 48; 256] ->
     create_printer_icon s w' = (w', Ok (r s))) /\
  generate create_printer_icon [16; 32; 48; 256]
      (with_stdout w ["Creating printer icon..."]) =
    (with_stdout w ("Creating printer icon..." ::
                    map generating [16; 32; 48; 256]),
     Ok [r 16; r 32; r 48; r 256]) /\
  main w =
    (mkWorld
       (stdout w ++ "Creating printer icon..." ::
          map generating [16; 32; 48; 256] ++
          saving w :: report w [16; 32; 48; 256])
       (<[icon_file w := ico_bytes frames]> (files w))
       (writable w) (opened w ++ [icon_file w]) (script_dir w),
     Ok tt) /\
  map (fun im => (xsize im, ysize im)) frames =
    [(16, 16); (32, 32); (48, 48); (256, 256)].
Proof.
  intros Hw r frames.
  destruct (rendered_size 256) as (_ & Hx & Hy).
  split; [|split; [|split]].
  - intros s w' Hin. by apply main_sizes_render.
  - rewrite (generate_spec _ rendered) by apply main_sizes_render.
    unfold with_stdout; simpl. by rewrite <- app_assoc.
  - rewrite main_writable by done. by rewrite rendered_256_frames.
  - subst frames. cbn [map].
    destruct (thumbnail_square (r 256) 16) as [-> ->]; [subst r; lia..|].
    destruct (thumbnail_square (r 256) 32) as [-> ->]; [subst r; lia..|].
    destruct (thumbnail_square (r 256) 48) as [-> ->]; [subst r; lia..|].
    subst r. by rewrite Hx, Hy.
Qed.


(** C9.  Two packaging runs over the sizes 16, 32, 48, 256 from the same
    world, with renderers that return an image for each of the sizes and
    agree on the 256x256 image, end in the same world with the same
    outcome, whatever they rendered for 16, 32 and 48; in particular the
    bytes stored at the icon path are the same. *)
Theorem file_depends_on_largest_only (render render' : Z -> Py Image)
    (r r' : Z -> Image) (w : World) :
  renders render r [16; 32; 48; 256] ->
  renders render' r' [16; 32; 48; 256] ->
  r 256 = r' 256 ->
  package render [16; 32; 48; 256] w = package render' [16; 32; 48; 256] w /\
  files (package render [16; 32; 48; 256] w).1 !! icon_file w =
  files (package render' [16; 32; 48; 256] w).1 !! icon_file w.
Proof.
  intros Hr Hr' H256.
  assert (Heq : package render [16; 32; 48; 256] w =
                package render' [16; 32; 48; 256] w).
  { rewrite (package_unfold render r), (package_unfold render' r') by done.
    apply save_icons_last_only.
    cbn [map last]. by rewrite H256. }
  split; [done|]. by rewrite Heq.
Qed.

End driver_claims.

(** * Instances of the claims on the reference library *)

Section witnesses.
Import Reference ReferenceFacts.

Lemma blank_below_256_renders :
  renders blank_below_256 blank_below_256_image [16; 32; 48; 256].
Proof.
  intros s Hin w. unfold blank_below_256, blank_below_256_image.
  destruct (decide (s = 256)) as [->|Hne].
  - apply create_printer_icon_returns. lia.
  - apply Image_new_accepted;
      repeat (apply elem_of_cons in Hin as [->|Hin]; [lia|]);
      by apply elem_of_nil in Hin.
Qed.

(** [body_width_in_pixels] at size 16: the body is 12 pixels wide. *)
Lemma body_width_in_pixels_witness :
  int_box (body_box 16) = (2, 4, 13, 12) /\
  7 * 16 < 10 * (13 - 2 + 1) < 7 * 16 + 20.
Proof.
  destruct (body_width_in_pixels 16 w_rw) as (_ & _ & Hb & _ & Hw); [lia|].
  split; [exact Hb|exact Hw].
Defined.


(** [power_button_from_32] at sizes 32 and 16. *)
Lemma power_button_from_32_witness :
  (exists img x y,
     create_printer_icon 32 w_rw = (w_rw, Ok img) /\
     in_box (int_box (button_box 32)) x y = true /\
     getpixel img x y = Some (getink button_color)) /\
  (exists img, create_printer_icon 16 w_rw = (w_rw, Ok img)) /\
  getpixel (rendered 16) 8 8 <> Some (getink button_color).
Proof.
  split; [|split].
  - apply (power_button_from_32 32 w_rw); lia.
  - apply (power_button_from_32 16 w_rw); lia.
  - apply (power_button_from_32 16 w_rw ltac:(lia)) with (w' := w_rw);
      [lia|]. apply create_printer_icon_returns. lia.
Defined.

(** [render_deterministic] at size 16, in two worlds, and the corner
    pixel. *)
Lemma render_deterministic_witness :
  exists img,
    create_printer_icon 16 w_rw = (w_rw, Ok img) /\
    create_printer_icon 16 w_ro = (w_ro, Ok img) /\
    getpixel img 0 0 = Some (mkPixel 0 0 0 0).
Proof.
  destruct (render_deterministic 16 w_rw w_ro) as (_ & _ & H16 & _).
  destruct H16 as (img & Hrw & Hro & _ & Hpx); [lia|].
  exists img. split; [exact Hrw|]. split; [exact Hro|].
  apply Hpx; [lia|lia|vm_compute; reflexivity].
Defined.

(** [later_shape_wins] at size 64, where paper and body both cover the
    pixel (32, 20) and the body is the last call that does; and at size 6,
    where the last call to cover the pixel (2, 3) is the front panel, with
    its outline pass. *)
Lemma later_shape_wins_witness :
  covers (paper 64) 32 20 = true /\
  (exists img,
     create_printer_icon 64 w_rw = (w_rw, Ok img) /\
     getpixel img 32 20 = Some (shape_pixel (body 64) 32 20)) /\
  fill_cover (panel 6) 2 3 = false /\
  getpixel (rendered 6) 2 3 = Some (getink outline_color).
Proof.
  split; [vm_compute; reflexivity|].
  destruct (later_shape_wins 64 [paper 64] [panel 64; button 64; tray 64]
              (body 64) 32 20 w_rw) as (_ & _ & H64 & Hpx);
    [reflexivity|lia|lia|vm_compute; reflexivity|vm_compute; reflexivity|].
  split.
  - destruct H64 as [img Hr]; [lia|]. exists img.
    split; [exact Hr|]. exact (Hpx _ _ Hr).
  - split; [vm_compute; reflexivity|].
    apply (later_shape_wins 6 [paper 6; body 6] [tray 6] (panel 6) 2 3 w_rw)
      with (w' := w_rw);
      [reflexivity|lia|lia|vm_compute; reflexivity|vm_compute; reflexivity|].
    apply create_printer_icon_returns. lia.
Defined.

(** [alpha_is_0_or_255] at a pixel of the accent panel of the 16x16 icon. *)
Lemma alpha_is_0_or_255_witness :
  alpha (mkPixel 100 180 255 255) = 0 \/ alpha (mkPixel 100 180 255 255) = 255.
Proof.
  apply (alpha_is_0_or_255 16 w_rw w_rw (rendered 16) 8 8
           (mkPixel 100 180 255 255)).
  - apply create_printer_icon_returns. lia.
  - vm_compute; reflexivity.
Defined.

(** [main_saves_largest_render] in a world where every path is writable. *)
Lemma main_saves_largest_render_witness :
  (main w_rw).2 = Ok tt /\
  opened (main w_rw).1 = ["/opt/agent/assets/icon.ico"] /\
  files (main w_rw).1 !! "/opt/agent/assets/icon.ico" =
    Some (ico_bytes
            [thumbnail (rendered 256) (16, 16);
             thumbnail (rendered 256) (32, 32);
             thumbnail (rendered 256) (48, 48);
             rendered 256]).
Proof.
  destruct (main_saves_largest_render w_rw eq_refl) as (_ & _ & Hmain & _).
  rewrite Hmain. split; [reflexivity|split; [reflexivity|]].
  apply lookup_insert_eq.
Defined.


(** [file_depends_on_largest_only] for the script's renderer and one that
    returns blank images below 256. *)
Lemma file_depends_on_largest_only_witness :
  package create_printer_icon [16; 32; 48; 256] w_rw =
  package blank_below_256 [16; 32; 48; 256] w_rw.
Proof.
  apply (file_depends_on_largest_only create_printer_icon blank_below_256
           rendered blank_below_256_image w_rw).
  - apply main_sizes_render.
  - apply blank_below_256_renders.
  - reflexivity.
Defined.

End witnesses.

(** * Where the specification's wording fails *)

Section counterexamples.
Import Reference ReferenceFacts.

Set Warnings "-inexact-float".

Lemma render_16_not_blank : rendered 16 <> canvas 16.
Proof.
  intros Heq.
  apply (f_equal (fun im => getpixel im 4 0)) in Heq.
  vm_compute in Heq. discriminate Heq.
Qed.

Lemma downscaled_256_not_render_16 :
  thumbnail (rendered 256) (16, 16) <> rendered 16.
Proof.
  intros Heq.
  apply (f_equal (fun im => getpixel im 4 0)) in Heq.
  vm_compute in Heq. discriminate Heq.
Qed.

(** C1, as the specification words it, fails: the file does not embed the
    collected 16x16, 32x32 and 48x48 renders.  Take the four images [main]
    collects and replace the first, [render(16)], by a blank 16x16 image:
    the two collections differ, yet for every ICO codec and every world the
    saving step leaves the same world, file included.  And with the
    reference codec the 16x16 frame that is written, the downscaled
    256x256 render, is not [render(16)]. *)
Lemma small_renders_not_embedded :
  let icons := map rendered [16; 32; 48; 256] in
  let icons' := canvas 16 :: drop 1 icons in
  (generate create_printer_icon [16; 32; 48; 256] w_rw).2 = Ok icons /\
  icons !! 0%nat <> icons' !! 0%nat /\
  (forall (codec : IcoCodec) (w : World),
     save_icons icons [16; 32; 48; 256] w =
     save_icons icons' [16; 32; 48; 256] w) /\
  thumbnail (rendered 256) (16, 16) <> rendered 16.
Proof.
  cbv zeta. split; [|split; [|split]].
  - by rewrite (generate_spec _ rendered) by apply main_sizes_render.
  - change (Some (rendered 16) <> Some (canvas 16)).
    intros Heq. apply (inj Some) in Heq. by apply render_16_not_blank.
  - intros codec w. by apply save_icons_last_only.
  - apply downscaled_256_not_render_16.
Qed.



(** C6, as the specification words it, fails: not every positive size
    yields images to compare.  At size 3 the call raises [ValueError], and
    a run that calls it twice ends at the first call. *)
Lemma render_3_yields_no_image :
  create_printer_icon 3 w_rw = (w_rw, Raise (ValueError in_draw_rectangle)) /\
  (generate create_printer_icon [3; 3] w_rw).2 =
    Raise (ValueError in_draw_rectangle).
Proof.
  split; [apply create_printer_icon_refused; lia|].
  rewrite (generate_raises _ _ _ (ValueError in_draw_rectangle)); [done|].
  intros w. apply create_printer_icon_refused. lia.
Qed.

(** C8, as the specification words it, fails: the body of the 16x16 icon
    is 12 pixels wide, columns 2 to 13 of row 8 being opaque and columns 1
    and 14 transparent, which is three quarters of the width and not 0.7
    of it.  Nor is the ratio exact on the floats: in binary64, at size 48,
    [body_w / size] differs from [0.7]. *)
Lemma body_width_is_not_seven_tenths :
  (exists img,
     create_printer_icon 16 w_rw = (w_rw, Ok img) /\
     map (fun x => alpha <$> getpixel img x 8) [1; 2; 13; 14] =
       [Some 0; Some 255; Some 255; Some 0]) /\
  ~ (inject_Z (13 - 2 + 1) == 0.7 * inject_Z 16)%Q /\
  (inject_Z (13 - 2 + 1) == 0.75 * inject_Z 16)%Q /\
  PrimFloat.eqb (Binary64.body_w 48 / Binary64.float_of_int 48) 0.7 = false.
Proof.
  split; [|split; [|split]].
  - exists (rendered 16).
    split; [apply create_printer_icon_returns; lia|].
    vm_compute. reflexivity.
  - vm_compute. discriminate.
  - vm_compute. reflexivity.
  - vm_compute. reflexivity.
Qed.

End counterexamples.

(** * Further properties of the script *)

(** ** Where the drawing lands *)

Section canvas_facts.
Context `{EllipseRasterizer}.

Lemma boxes_inside size :
  6 <= size ->
  Forall (fun sh => box_inside size (int_box (box_of sh))) (shapes size).
Proof.
  intros Hs. unfold shapes.
  destruct (decide (size >= 32)); simpl;
    repeat first [apply Forall_cons_2 | apply Forall_nil_2].
  all: box_arith.
Qed.

Lemma panel_inverted size :
  0 < size < 6 -> box_inverted (int_box (box_of (panel size))).
Proof. intros Hs. box_arith. Qed.

Lemma boxes_off_edge size :
  20 <= size ->
  Forall (fun sh => box_off_edge size (int_box (box_of sh))) (shapes size).
Proof.
  intros Hs. unfold shapes.
  destruct (decide (size >= 32)); simpl;
    repeat first [apply Forall_cons_2 | apply Forall_nil_2].
  all: box_arith.
Qed.

Lemma off_edge_not_in_box size b x y :
  box_off_edge size b -> on_edge size x y -> in_box b x y = false.
Proof.
  destruct b as [[[x0 y0] x1] y1]. unfold box_off_edge, on_edge.
  intros Hb He. apply in_box_false_iff. lia.
Qed.

Lemma edge_is_transparent size x y :
  20 <= size ->
  0 <= x < size -> 0 <= y < size ->
  on_edge size x y ->
  getpixel (rendered size) x y = Some (mkPixel 0 0 0 0).
Proof.
  intros Hs Hx Hy He. rewrite getpixel_rendered by done.
  rewrite painted_uncovered; [done|].
  apply not_true_is_false. intros (sh & Hin & Hc)%existsb_exists.
  apply list_elem_of_In in Hin.
  pose proof (shapes_stroke_inside size ltac:(lia)) as HS.
  rewrite Forall_forall in HS.
  apply covers_in_box in Hc; [|by apply HS].
  pose proof (boxes_off_edge size Hs) as HF.
  rewrite Forall_forall in HF.
  by rewrite (off_edge_not_in_box size _ x y (HF sh Hin) He) in Hc.
Qed.

(** X1.  A pixel of an image [create_printer_icon] returns is opaque
    exactly when some drawing call covers it, with its fill pass or its
    outline pass, and is the transparent canvas value (0, 0, 0, 0) exactly
    when none does: drawing never leaves a covered pixel transparent and
    never touches an uncovered one.  A negative index counts from the
    end. *)
Theorem opaque_iff_covered (size x y : Z) (w w' : World) (img : Image)
    (p : Pixel) :
  create_printer_icon size w = (w', Ok img) ->
  getpixel img x y = Some p ->
  (alpha p = 255 <-> covered size (wrap size x) (wrap size y) = true) /\
  (p = mkPixel 0 0 0 0 <->
   covered size (wrap size x) (wrap size y) = false).
Proof.
  intros Hr Hp. apply create_printer_icon_inv in Hr as (_ & _ & ->).
  apply getpixel_rendered_inv in Hp as (_ & ->).
  unfold covered.
  destruct (existsb (fun sh => covers sh (wrap size x) (wrap size y))
              (shapes size)) eqn:Hc.
  - pose proof (painted_covered (shapes size) _ _ blank
                  (shapes_all_opaque size) Hc) as Ha.
    split; split; try done.
    intros Hb. rewrite Hb in Ha. discriminate Ha.
  - rewrite painted_uncovered by done. split; split; done.
Qed.

(** X2.  From size 20 on, the first and last row and column of the image
    are fully transparent: the icon keeps a margin.  From size 6 to 19 it
    does not: the output paper starts in row 0, so the middle pixel of the
    top row is opaque. *)
Theorem transparent_margin_from_20 (size : Z) (w : World) :
  (20 <= size ->
   exists img,
     create_printer_icon size w = (w, Ok img) /\
     forall x y, 0 <= x < size -> 0 <= y < size -> on_edge size x y ->
       getpixel img x y = Some (mkPixel 0 0 0 0)) /\
  (6 <= size < 20 ->
   exists img p,
     create_printer_icon size w = (w, Ok img) /\
     getpixel img (size / 2) 0 = Some p /\ alpha p = 255).
Proof.
  split.
  - intros Hs. exists (rendered size).
    split; [apply create_printer_icon_returns; lia|].
    intros x y Hx Hy He. by apply edge_is_transparent.
  - intros Hs. exists (rendered size). eexists.
    split; [apply create_printer_icon_returns; lia|]. split.
    + apply getpixel_rendered; [Z.to_euclidean_division_equations; lia|lia].
    + apply painted_covered; [apply shapes_all_opaque|].
      unfold shapes. cbn [app existsb]. apply orb_true_iff. left.
      unfold covers, fill_cover, paper. rewrite paper_int_box by lia.
      apply orb_true_iff. left. apply in_box_true_iff.
      Z.to_euclidean_division_equations; lia.
Qed.

(** X3.  From size 6 on, every box handed to a drawing call has its corners
    in order and lies inside the canvas, so nothing is clipped.  For sizes
    1 to 5 the accent panel's box is inverted: the inset of twice the
    stroke width exceeds what the body leaves. *)
Theorem canvas_fits_from_6 (size : Z) :
  (6 <= size ->
   Forall (fun sh => box_inside size (int_box (box_of sh))) (shapes size)) /\
  (0 < size < 6 -> box_inverted (int_box (box_of (panel size)))).
Proof. split; [apply boxes_inside|apply panel_inverted]. Qed.

(** X4.  From size 6 on, the left and right edge columns of the printer
    body show the outline colour on every row from the body's top down to
    the row above the tray: neither the panel, which is inset, nor the
    button, nor the tray overwrites them. *)
Theorem body_sides_keep_outline (size x y : Z) (w : World) :
  6 <= size ->
  (x = (15 * size) / 100 \/ x = (85 * size) / 100) ->
  (25 * size) / 100 <= y < (75 * size) / 100 ->
  int_box (body_box size) =
    ((15 * size) / 100, (25 * size) / 100,
     (85 * size) / 100, (75 * size) / 100) /\
  exists img,
    create_printer_icon size w = (w, Ok img) /\
    getpixel img x y = Some (getink outline_color).
Proof.
  intros Hs Hx Hy. split; [apply body_int_box; lia|].
  exists (rendered size). split; [by apply create_printer_icon_returns|].
  assert (Hbx : 0 <= x < size) by (Z.to_euclidean_division_equations; lia).
  assert (Hby : 0 <= y < size) by (Z.to_euclidean_division_equations; lia).
  rewrite getpixel_rendered by done.
  assert (Hshapes : exists l2,
            shapes size = [paper size] ++ body size :: l2 /\
            Forall (fun sh => sh = panel size \/
                              (sh = button size /\ 32 <= size) \/
                              sh = tray size) l2).
  { unfold shapes.
    destruct (decide (size >= 32)); eexists; (split; [reflexivity|]);
      repeat first [apply Forall_cons_2 | apply Forall_nil_2];
      auto with lia. }
  destruct Hshapes as (l2 & -> & Hl2).
  rewrite painted_last.
  - unfold shape_pixel, stroke_cover, outline_cover, body, outline_of,
      fill_of, width_of.
    rewrite body_int_box by lia.
    replace (strokes printer_body outline_color (line_width size)) with true.
    2:{ symmetry. unfold strokes. apply andb_true_iff. split;
          apply bool_decide_eq_true; [discriminate|].
        rewrite line_width_div. lia. }
    replace (rect_border _ _ x y) with true; [done|].
    symmetry. pose proof (line_width_div size) as Hlw.
    apply rect_border_true_iff; [Z.to_euclidean_division_equations; lia|].
    Z.to_euclidean_division_equations; lia.
  - apply body_covers; [lia| |lia].
    Z.to_euclidean_division_equations; lia.
  - apply not_true_is_false. intros (sh & Hin & Hc)%existsb_exists.
    apply list_elem_of_In in Hin. rewrite Forall_forall in Hl2.
    destruct (Hl2 sh Hin) as [->|[[-> Hge]| ->]]; clear Hl2 Hin.
    + pose proof (shapes_stroke_in_columns size Hs) as HF.
      rewrite Forall_forall in HF.
      apply covers_in_columns in Hc; [|apply HF, panel_in_shapes].
      revert Hc.
      cbv beta iota delta [box_of panel fst snd]; qeval;
        cbv beta iota delta [fst snd];
        Z.to_euclidean_division_equations; lia.
    + apply covers_in_box in Hc; [|exact I]. revert Hc.
      apply not_true_iff_false. unfold box_of, button.
      rewrite button_int_box by lia. apply in_box_false_iff.
      Z.to_euclidean_division_equations; lia.
    + apply covers_in_box in Hc; [|by apply tray_stroke_inside]. revert Hc.
      apply not_true_iff_false. unfold box_of, tray.
      rewrite tray_int_box by lia. apply in_box_false_iff.
      Z.to_euclidean_division_equations; lia.
Qed.

(** X5.  From size 6 on every drawing call of the icon is accepted and
    makes both passes, the fill and then the outline over it: its stroke
    width is between 1 and [max 1 (size / 32)] and its outline colour
    differs from its fill.  For the sizes 0 to 5 the call that draws the
    front panel is refused with [ValueError] instead. *)
Theorem every_call_strokes (size : Z) (img : Image) (w : World) :
  (6 <= size ->
   forall sh, sh ∈ shapes size ->
     draw img sh w =
       (w, Ok (paint (outline_cover sh) (getink (outline_of sh))
                 (paint (fill_cover sh) (getink (fill_of sh)) img))) /\
     1 <= width_of sh <= Z.max 1 (size / 32)) /\
  (0 <= size < 6 ->
   draw img (panel size) w = (w, Raise (ValueError in_draw_rectangle))).
Proof.
  split.
  - intros Hs sh Hin.
    pose proof (shapes_ordered size Hs) as HF. rewrite Forall_forall in HF.
    rewrite draw_accepted by by apply HF.
    rewrite <- line_width_div. pose proof (line_width_div size) as Hlw.
    destruct (shapes_cases size sh Hin) as [->|[->|[->|[[-> _]| ->]]]];
      simpl; unfold paint_rectangle, paint_ellipse;
      (split; [|lia]);
      (replace (strokes _ _ _) with true; [done|]);
      symmetry; unfold strokes; apply andb_true_iff; split;
      apply bool_decide_eq_true; (discriminate || lia).
  - intros Hs. rewrite draw_refused; [done|]. by apply panel_not_ordered.
Qed.

(** X13.  What [create_printer_icon] does is decided by the size alone:
    for a negative size [Image.new] raises [ValueError]; for the sizes 0 to
    5 the canvas and the first two rectangles are drawn and the front
    panel's rectangle raises [ValueError]; from size 6 on every drawing
    call is accepted and the image is returned.  The world is never
    changed. *)
Theorem outcome_by_size (size : Z) (w : World) :
  (size < 0 ->
   create_printer_icon size w = (w, Raise (ValueError in_Image_new))) /\
  (0 <= size < 6 ->
   create_printer_icon size w = (w, Raise (ValueError in_draw_rectangle)) /\
   Forall (fun sh => ordered (box_of sh) = true) [paper size; body size] /\
   ordered (box_of (panel size)) = false) /\
  (6 <= size ->
   create_printer_icon size w = (w, Ok (rendered size)) /\
   Forall (fun sh => ordered (box_of sh) = true) (shapes size)).
Proof.
  split; [apply create_printer_icon_negative|]. split.
  - intros Hs. split; [by apply create_printer_icon_refused|].
    split; [apply paper_body_ordered; lia|by apply panel_not_ordered].
  - intros Hs. split; [by apply create_printer_icon_returns|].
    by apply shapes_ordered.
Qed.

End canvas_facts.

(** ** The driver on any world and any size list *)

Section driver_extras.
Context `{EllipseRasterizer} `{IcoCodec}.





(** X6.  The rendering loop, for any size list and any renderer that
    returns an image for each size of the list, collects exactly one image
    per size, at the same position as the size, prints one progress line
    per size in order, and neither stores nor opens any file. *)
Theorem loop_collects_in_order (render : Z -> Py Image) (r : Z -> Image)
    (sizes : list Z) (w : World) :
  renders render r sizes ->
  exists icons,
    (generate render sizes w).2 = Ok icons /\
    length icons = length sizes /\
    (forall i s, sizes !! i = Some s -> icons !! i = Some (r s)) /\
    stdout (generate render sizes w).1 = stdout w ++ map generating sizes /\
    files (generate render sizes w).1 = files w /\
    opened (generate render sizes w).1 = opened w.
Proof.
  intros Hr. rewrite (generate_spec render r) by done. exists (map r sizes).
  split; [done|]. split; [apply length_map|]. split; [|done].
  intros i s Hs. change (map r sizes) with (r <$> sizes).
  by rewrite list_lookup_fmap, Hs.
Qed.


(** X8.  Running [main] a second time, from the world the first run left,
    ends with the same files and the same outcome as the first run: on
    success the icon is overwritten with identical content, on failure
    nothing is stored either time. *)
Theorem main_twice_same_files (w : World) :
  files (main (main w).1).1 = files (main w).1 /\
  (main (main w).1).2 = (main w).2.
Proof.
  destruct (writable w (icon_file w)) eqn:Hw.
  - rewrite (main_writable w) by done. cbn [fst snd].
    rewrite main_writable by done. cbn [fst snd files].
    split; [|done]. apply insert_insert_eq.
  - rewrite (main_readonly w) by done. cbn [fst snd].
    by rewrite main_readonly by done.
Qed.

(** X9.  [main] leaves every file other than the icon as it was, changes
    neither the permissions nor the script directory, opens exactly one
    file for writing, the icon path, and only appends to the console
    output, whether it succeeds or fails. *)
Theorem main_touches_only_the_icon (w : World) (p : string) :
  p <> icon_file w ->
  files (main w).1 !! p = files w !! p /\
  writable (main w).1 = writable w /\
  script_dir (main w).1 = script_dir w /\
  opened (main w).1 = opened w ++ [icon_file w] /\
  exists lines, stdout (main w).1 = stdout w ++ lines.
Proof.
  intros Hp.
  destruct (writable w (icon_file w)) eqn:Hw.
  - rewrite (main_writable w) by done. cbn [fst files].
    split; [by apply lookup_insert_ne|]. repeat split. by eexists.
  - rewrite (main_readonly w) by done. cbn [fst files].
    repeat split. by eexists.
Qed.

(** X10.  Among the lines a run of [main] prints, the success line
    appears exactly when the icon path was writable, which is exactly when
    [main] returns normally: success is never reported for a file that
    was not written. *)
Theorem ok_line_iff_written (w : World) :
  exists lines,
    stdout (main w).1 = stdout w ++ lines /\
    (ok_line ∈ lines <-> writable w (icon_file w) = true) /\
    ((main w).2 = Ok tt <-> writable w (icon_file w) = true).
Proof.
  destruct (writable w (icon_file w)) eqn:Hw.
  - rewrite (main_writable w) by done. cbn [fst snd stdout].
    eexists. split; [done|]. split; [|done]. split; [done|]. intros _.
    rewrite elem_of_cons, elem_of_app, elem_of_cons. right. right. right.
    apply list_elem_of_here.
  - rewrite (main_readonly w) by done. cbn [fst snd stdout].
    eexists. split; [done|]. split; [|done]. split; [|done].
    intros Hin. exfalso.
    repeat (apply elem_of_cons in Hin as [Hin|Hin]; [discriminate Hin|]).
    by apply elem_of_nil in Hin.
Qed.

End driver_extras.

(** ** Floats *)

(** X11.  For every size from 1 to 2000, evaluating the geometry of
    [create_printer_icon] in IEEE binary64, as Python does, and converting
    to integers gives exactly the boxes and the stroke width of exact
    arithmetic: rounding error never moves an edge by a pixel. *)
Theorem binary64_rounding_is_harmless (size : Z) :
  1 <= size <= 2000 ->
  Binary64.int_boxes size =
    map int_box [paper_box size; body_box size; panel_box size;
                 button_box size; tray_box size] /\
  Binary64.line_width size = line_width size.
Proof.
  intros Hs. pose proof rational_model_matches_binary64 as Hall.
  rewrite forallb_forall in Hall.
  assert (Hin : In size (seqZ 1 2000)).
  { apply list_elem_of_In, elem_of_seqZ. lia. }
  apply Hall in Hin. unfold Binary64.agrees in Hin.
  apply bool_decide_eq_true in Hin as [Hb Hl]. by split.
Qed.

(** X12.  For every size from 0 to 2000, the comparisons by which the
    drawing calls accept or refuse a box come out the same on the binary64
    coordinates as in exact arithmetic: the sizes at which the script
    raises are the same. *)
Theorem binary64_refuses_the_same_boxes (size : Z) :
  0 <= size <= 2000 ->
  Binary64.orders size =
    map ordered [paper_box size; body_box size; panel_box size;
                 button_box size; tray_box size].
Proof.
  intros Hs. pose proof rational_order_matches_binary64 as Hall.
  rewrite forallb_forall in Hall.
  assert (Hin : In size (seqZ 0 2001)).
  { apply list_elem_of_In, elem_of_seqZ. lia. }
  apply Hall in Hin. unfold Binary64.agrees_on_order in Hin.
  by apply bool_decide_eq_true in Hin.
Qed.

(** ** Instances of the further properties *)

Section extra_witnesses.
Import Reference ReferenceFacts.

(** [opaque_iff_covered] at a pixel of the accent panel of the 16x16
    icon. *)
Lemma opaque_iff_covered_witness : covered 16 8 8 = true.
Proof.
  assert (Hr : create_printer_icon 16 w_rw = (w_rw, Ok (rendered 16)))
    by (apply create_printer_icon_returns; lia).
  assert (Hp : getpixel (rendered 16) 8 8 =
               Some (mkPixel 100 180 255 255)) by (vm_compute; reflexivity).
  destruct (opaque_iff_covered 16 8 8 _ _ _ _ Hr Hp) as [[Hto _] _].
  apply Hto. reflexivity.
Defined.

(** [transparent_margin_from_20] at sizes 20 and 19. *)
Lemma transparent_margin_from_20_witness :
  (exists img,
     create_printer_icon 20 w_rw = (w_rw, Ok img) /\
     getpixel img 7 0 = Some (mkPixel 0 0 0 0)) /\
  exists img p,
    create_printer_icon 19 w_rw = (w_rw, Ok img) /\
    getpixel img (19 / 2) 0 = Some p /\ alpha p = 255.
Proof.
  split.
  - destruct (transparent_margin_from_20 20 w_rw) as [H20 _].
    destruct H20 as (img & Hr & Hpx); [lia|].
    exists img. split; [exact Hr|].
    apply Hpx; [lia|lia|]. right. right. left. reflexivity.
  - apply (transparent_margin_from_20 19 w_rw). lia.
Defined.

(** [canvas_fits_from_6] at sizes 6 and 5. *)
Lemma canvas_fits_from_6_witness :
  Forall (fun sh => box_inside 6 (int_box (box_of sh))) (shapes 6) /\
  box_inverted (int_box (box_of (panel 5))).
Proof.
  split.
  - apply (canvas_fits_from_6 6). lia.
  - apply (canvas_fits_from_6 5). lia.
Defined.

(** [body_sides_keep_outline] at the left edge of the 16x16 icon's body. *)
Lemma body_sides_keep_outline_witness :
  exists img,
    create_printer_icon 16 w_rw = (w_rw, Ok img) /\
    getpixel img 2 8 = Some (getink outline_color).
Proof.
  apply (body_sides_keep_outline 16 2 8 w_rw); [lia|by left|].
  change ((25 * 16) / 100) with 4. change ((75 * 16) / 100) with 12. lia.
Defined.

(** [every_call_strokes] for the tray of the 16x16 icon and the panel of
    the 5x5 one. *)
Lemma every_call_strokes_witness :
  1 <= width_of (tray 16) <= Z.max 1 (16 / 32) /\
  draw (canvas 5) (panel 5) w_rw =
    (w_rw, Raise (ValueError in_draw_rectangle)).
Proof.
  split.
  - apply (every_call_strokes 16 (canvas 16) w_rw); [lia|].
    rewrite shapes_small by lia.
    do 3 apply list_elem_of_further. apply list_elem_of_here.
  - apply (every_call_strokes 5 (canvas 5) w_rw). lia.
Defined.

(** [outcome_by_size] at sizes -1, 0 and 6. *)
Lemma outcome_by_size_witness :
  create_printer_icon (-1) w_rw = (w_rw, Raise (ValueError in_Image_new)) /\
  create_printer_icon 0 w_rw = (w_rw, Raise (ValueError in_draw_rectangle)) /\
  create_printer_icon 6 w_rw = (w_rw, Ok (rendered 6)).
Proof.
  split; [|split].
  - apply (outcome_by_size (-1) w_rw). lia.
  - apply (outcome_by_size 0 w_rw). lia.
  - apply (outcome_by_size 6 w_rw). lia.
Defined.

(** [loop_collects_in_order] for the script's renderer and sizes. *)
Lemma loop_collects_in_order_witness :
  exists icons,
    (generate create_printer_icon [16; 32; 48; 256] w_rw).2 = Ok icons /\
    length icons = 4%nat /\
    icons !! 3%nat = Some (rendered 256).
Proof.
  destruct (loop_collects_in_order create_printer_icon rendered
              [16; 32; 48; 256] w_rw main_sizes_render)
    as (icons & Hg & Hlen & Hat & _).
  exists icons. split; [exact Hg|]. split; [exact Hlen|].
  apply Hat. reflexivity.
Defined.


(** [main_touches_only_the_icon] for another path. *)
Lemma main_touches_only_the_icon_witness :
  files (main w_rw).1 !! "/etc/hosts" = files w_rw !! "/etc/hosts".
Proof.
  apply (main_touches_only_the_icon w_rw "/etc/hosts").
  intros Heq. vm_compute in Heq. discriminate Heq.
Defined.

(** [binary64_rounding_is_harmless] at size 256. *)
Lemma binary64_rounding_is_harmless_witness :
  Binary64.int_boxes 256 =
    map int_box [paper_box 256; body_box 256; panel_box 256;
                 button_box 256; tray_box 256] /\
  Binary64.line_width 256 = line_width 256.
Proof. apply (binary64_rounding_is_harmless 256). lia. Defined.

(** [binary64_refuses_the_same_boxes] at size 5. *)
Lemma binary64_refuses_the_same_boxes_witness :
  Binary64.orders 5 = [true; true; false; true; true].
Proof. apply (binary64_refuses_the_same_boxes 5). lia. Defined.

End extra_witnesses.
